(** * Kelp decision core: submission-mode filter, volume admission filter,
      swing level provider.

    A shallow embedding of
      - [trader/submitMode.go] (module [Trader]);
      - the volume admission filter of package [plugins], of which the
        sources hold the test, [plugins/volumeFilter_test.go], and not the
        function (module [VolumeFilter]);
      - the swing level provider of package [plugins] (module [Swing]);
    followed by the properties stated about them.

    Numbers.  The Go code computes on [float64].  Here every number is an
    exact rational in canonical form ([Qc]): equality is Leibniz equality, so a
    number can be the key of a finite map, and the definitions evaluate.  IEEE
    rounding, infinities and NaN are outside the model; division by zero
    yields 0 (as [Qcinv] does) where Go would yield an infinity. *)

From Stdlib Require Import QArith Qcanon Qround Ascii Lqa.
From stdpp Require Import gmap strings list fin_maps numbers pretty.

Local Open Scope Qc_scope.

(** Decimal literal [n / d] as a canonical rational. *)
Definition frac (n : Z) (d : positive) : Qc := Q2Qc (n # d).

(** Go's [(value, error)] pair: either a value or an error message. *)
Inductive result (A : Type) : Type :=
  | Ok (a : A)
  | Err (msg : string).
Arguments Ok {A} a.
Arguments Err {A} msg.

(** [model.TradingPair]. *)
Record TradingPair : Type := mkTradingPair {
  Base : string;
  Quote : string
}.

(** An order operation as the data model has it: side, price, amount. *)
Inductive Side : Type := Buy | Sell.

Record Operation : Type := mkOperation {
  side : Side;
  price : Qc;
  amount : Qc
}.

(** ** trader/submitMode.go *)
Module Trader.

Inductive SubmitMode : Type :=
  | SubmitModeMakerOnly
  | SubmitModeTakerOnly
  | SubmitModeBoth.

Definition ParseSubmitMode (submitMode : string) : SubmitMode :=
  if decide (submitMode = "maker_only") then SubmitModeMakerOnly
  else if decide (submitMode = "taker_only") then SubmitModeTakerOnly
  else SubmitModeBoth.

(** [model.OrderBook]: the resting orders of both sides, best first. *)
Record OrderBook : Type := mkOrderBook {
  asks : list (Qc * Qc);
  bids : list (Qc * Qc)
}.

Definition emptyOrderBook : OrderBook := mkOrderBook [] [].

Section Filter.

(** [plugins.SDEX], the exchange handle held by the filter; the filter never
    calls it (the order book fetch is commented out in the source). *)
Context {SDEX : Type}.

Record sdexFilter : Type := mkSdexFilter {
  tradingPair : TradingPair;
  sdex : SDEX;
  submitMode : SubmitMode
}.

(** [makeSubmitFilter]: Go's [nil] interface value is [None]. *)
Definition makeSubmitFilter (mode : SubmitMode) (s : SDEX) (tp : TradingPair)
    : option sdexFilter :=
  match mode with
  | SubmitModeMakerOnly | SubmitModeTakerOnly => Some (mkSdexFilter tp s mode)
  | SubmitModeBoth => None
  end.

(** Both mode filters return [nil, nil]: no operation, no error. *)
Definition filterMakerMode (ops : list Operation) (ob : OrderBook)
    : result (list Operation) :=
  Ok [].

Definition filterTakerMode (ops : list Operation) (ob : OrderBook)
    : result (list Operation) :=
  Ok [].

Definition apply (f : sdexFilter) (ops : list Operation)
    : result (list Operation) :=
  let ob := emptyOrderBook in
  match submitMode f with
  | SubmitModeMakerOnly =>
      match filterMakerMode ops ob with
      | Err e => Err ("could not apply maker mode filter: " +:+ e)
      | Ok ops' => Ok ops'
      end
  | _ =>
      match filterTakerMode ops ob with
      | Err e => Err ("could not apply taker mode filter: " +:+ e)
      | Ok ops' => Ok ops'
      end
  end.

End Filter.

(** Modelled from the spec: when an operation crosses the book.  The source
    has no crossing test (the intersection with the order book is a TODO);
    the policy reads: a sell priced at or below the best bid, or a buy
    priced at or above the best ask. *)
Definition crossesBook (bestBid bestAsk : Qc) (op : Operation) : bool :=
  match side op with
  | Sell => bool_decide (price op <= bestBid)
  | Buy => bool_decide (bestAsk <= price op)
  end.

End Trader.

(** ** The volume admission filter *)
Module VolumeFilter.

(** The two daily accumulators, on-the-books (OTB) and to-be-booked (TBB). *)
Record VolumeAccumulator : Type := mkVolume {
  baseVolume : Qc;
  quoteVolume : Qc
}.

Inductive volumeFilterMode : Type :=
  | volumeFilterModeExact
  | volumeFilterModeIgnore.

(** [limitParameters], as the test constructs it: a cap is a nil-able
    pointer, here an [option]. *)
Record limitParameters : Type := mkLimits {
  sellBaseAssetCapInBaseUnits : option Qc;
  sellBaseAssetCapInQuoteUnits : option Qc;
  mode : volumeFilterMode
}.

Definition Qcmin (x y : Qc) : Qc := if decide (x <= y) then x else y.

(** Modelled from the spec: [availableBase] of step 1 of the filter's
    contract, [capInBaseUnits - (OTB.base + TBB.base)] when a base cap is
    configured, else unconstrained ([None]).  The filter function itself is
    not among the sources; only its test is. *)
Definition availableBase (lp : limitParameters)
    (otb tbb : VolumeAccumulator) : option Qc :=
  cap ← sellBaseAssetCapInBaseUnits lp;
  Some (cap - (baseVolume otb + baseVolume tbb)).

(** Modelled from the spec: [availableQuote] of step 1, symmetric to
    [availableBase], from the quote cap. *)
Definition availableQuote (lp : limitParameters)
    (otb tbb : VolumeAccumulator) : option Qc :=
  cap ← sellBaseAssetCapInQuoteUnits lp;
  Some (cap - (quoteVolume otb + quoteVolume tbb)).

(** Lower [a] to a bound when there is one. *)
Definition capTo (a : Qc) (bound : option Qc) : Qc :=
  match bound with
  | Some b => Qcmin a b
  | None => a
  end.

(** Modelled from the spec: the admissible amount of step 2, the minimum of
    the operation's own amount, [availableBase], and [availableQuote]
    converted to base units with the operation's price. *)
Definition admissibleAmount (otb tbb : VolumeAccumulator) (op : Operation)
    (lp : limitParameters) : Qc :=
  let inBase := capTo (amount op) (availableBase lp otb tbb) in
  capTo inBase ((λ q, q / price op) <$> availableQuote lp otb tbb).

Definition addVolume (tbb : VolumeAccumulator) (base quote : Qc)
    : VolumeAccumulator :=
  mkVolume (baseVolume tbb + base) (quoteVolume tbb + quote).

Section Filter.

(** Rounding down to the exchange's minimum tick (step 4). *)
Variable roundDownToTick : Qc → Qc.

(** Modelled from the spec: steps 3 to 5 of the contract of the admission
    filter ([volumeFilterFn] in the test).  The result is the operation to
    submit, if any, and the TBB accumulator after the call (the Go function
    mutates it in place).  A non-positive admissible amount drops the
    operation; an admissible amount below the requested one replaces the
    operation's amount, written at tick precision; on admission TBB grows by
    the admitted base amount and its quote equivalent. *)
Definition volumeFilterFn (otb tbb : VolumeAccumulator) (op : Operation)
    (lp : limitParameters) : option Operation * VolumeAccumulator :=
  let a := admissibleAmount otb tbb op lp in
  if decide (a <= 0) then (None, tbb)
  else
    let op' :=
      if decide (a < amount op)
      then mkOperation (side op) (price op) (roundDownToTick a)
      else op in
    (Some op', addVolume tbb a (a * price op)).

(** The operations of one cycle, filtered one after another against the same
    OTB snapshot; each result comes with the TBB accumulator it leaves. *)
Fixpoint filterAll (otb tbb : VolumeAccumulator) (ops : list Operation)
    (lp : limitParameters) : list (option Operation * VolumeAccumulator) :=
  match ops with
  | [] => []
  | op :: rest =>
      let r := volumeFilterFn otb tbb op lp in
      r :: filterAll otb (snd r) rest lp
  end.

End Filter.

(** Modelled from the spec: the minimum tick is seven decimal places (the
    test expects amounts such as 0.5000000); rounding is towards zero for the
    positive amounts it is applied to. *)
Definition floorToTick (x : Qc) : Qc :=
  Q2Qc (Qfloor (x * frac 10000000 1) # 10000000).

(** The committed volume stays within every configured cap. *)
Definition withinCaps (lp : limitParameters) (otb tbb : VolumeAccumulator)
    : Prop :=
  (∀ cap, sellBaseAssetCapInBaseUnits lp = Some cap →
     baseVolume otb + baseVolume tbb <= cap) ∧
  (∀ cap, sellBaseAssetCapInQuoteUnits lp = Some cap →
     quoteVolume otb + quoteVolume tbb <= cap).

End VolumeFilter.

(** ** plugins: the swing level provider *)
Module Swing.

(** [model.OrderAction]. *)
Inductive OrderAction : Type := OrderActionBuy | OrderActionSell.

(** [model.Trade], with the fields the provider reads: the transaction
    identifier and the order's timestamp, both as their [String()], the
    order's action and its price as [AsFloat()]. *)
Record Trade : Type := mkTrade {
  TransactionID : string;
  OrderTimestamp : string;
  TradeOrderAction : OrderAction;
  TradePrice : Qc
}.

(** [api.Level]. *)
Record Level : Type := mkLevel {
  Price : Qc;
  Amount : Qc
}.

(** [swingLevelProvider]; the trade fetcher it holds is part of the world
    ([World] below), not of the record. *)
Record swingLevelProvider : Type := mkProvider {
  spread : Qc;
  offsetSpread : Qc;
  amountBase : Qc;
  useMaxQuoteInTargetAmountCalc : bool;
  maxLevels : Z;
  lastTradePrice : Qc;
  priceLimit : Qc;
  minBase : Qc;
  tradingPair : TradingPair;
  lastTradeCursor : string;
  isFirstTradeHistoryRun : bool
}.

Definition makeSwingLevelProvider (spread offsetSpread : Qc)
    (useMaxQuoteInTargetAmountCalc : bool) (amountBase : Qc) (maxLevels : Z)
    (lastTradePrice priceLimit minBase : Qc) (tradingPair : TradingPair)
    (lastTradeCursor : string) : swingLevelProvider :=
  mkProvider spread offsetSpread amountBase useMaxQuoteInTargetAmountCalc
    maxLevels lastTradePrice priceLimit minBase tradingPair lastTradeCursor
    true.

Definition setCursor (p : swingLevelProvider) (c : string)
    : swingLevelProvider :=
  mkProvider (spread p) (offsetSpread p) (amountBase p)
    (useMaxQuoteInTargetAmountCalc p) (maxLevels p) (lastTradePrice p)
    (priceLimit p) (minBase p) (tradingPair p) c (isFirstTradeHistoryRun p).

Definition setLastTradePrice (p : swingLevelProvider) (x : Qc)
    : swingLevelProvider :=
  mkProvider (spread p) (offsetSpread p) (amountBase p)
    (useMaxQuoteInTargetAmountCalc p) (maxLevels p) x
    (priceLimit p) (minBase p) (tradingPair p) (lastTradeCursor p)
    (isFirstTradeHistoryRun p).

Definition clearFirstRun (p : swingLevelProvider) : swingLevelProvider :=
  mkProvider (spread p) (offsetSpread p) (amountBase p)
    (useMaxQuoteInTargetAmountCalc p) (maxLevels p) (lastTradePrice p)
    (priceLimit p) (minBase p) (tradingPair p) (lastTradeCursor p) false.

(** *** [strconv.Atoi] and [strconv.FormatInt] on a 64-bit platform *)

Definition minInt64 : Z := - 2 ^ 63.
Definition maxInt64 : Z := 2 ^ 63 - 1.

(** Two's-complement wrap-around of [int64] arithmetic. *)
Definition wrapInt64 (z : Z) : Z := (z + 2 ^ 63) `mod` 2 ^ 64 - 2 ^ 63.

Definition digitValue (c : ascii) : option Z :=
  let n := Z.of_nat (nat_of_ascii c) in
  if bool_decide (48 ≤ n ≤ 57)%Z then Some (n - 48)%Z else None.

Fixpoint parseDigits (acc : Z) (s : string) : option Z :=
  match s with
  | EmptyString => Some acc
  | String c rest => d ← digitValue c; parseDigits (10 * acc + d)%Z rest
  end.

(** [strconv.Atoi]: an optional sign, then one or more decimal digits, and a
    value that fits [int]; anything else is an error.  (Go's message also
    quotes the input.) *)
Definition Atoi (s : string) : result Z :=
  let '(neg, body) :=
    match s with
    | String "+"%char rest => (false, rest)
    | String "-"%char rest => (true, rest)
    | _ => (false, s)
    end in
  match body with
  | EmptyString => Err "strconv.Atoi: invalid syntax"
  | _ =>
      match parseDigits 0 body with
      | None => Err "strconv.Atoi: invalid syntax"
      | Some n =>
          let v := if neg : bool then (- n)%Z else n in
          if bool_decide (minInt64 ≤ v ≤ maxInt64)%Z then Ok v
          else Err "strconv.Atoi: value out of range"
      end
  end.

(** [strconv.FormatInt(v, 10)]. *)
Definition FormatInt (v : Z) : string := pretty v.

(** *** The continuity map and its reconciliation scan *)

(** The sentinel the scan starts from, [-1.0]. *)
Definition unknownPrice : Qc := frac (-1) 1.

(** One iteration of the [range] loop of [getLastPriceFromMap]; the
    accumulator is [(closestOfferPrice, lp)]. *)
Definition scanStep (tradePrice : Qc) (lastTradeIsBuy : bool)
    (acc : Qc * Qc) (entry : Qc * Qc) : Qc * Qc :=
  let '(closestOfferPrice, _) := acc in
  let '(offerPrice, offerLastPrice) := entry in
  let firstIter := bool_decide (closestOfferPrice = unknownPrice) in
  let buyTrigger :=
    lastTradeIsBuy && bool_decide (tradePrice < offerPrice)
      && bool_decide (offerPrice < closestOfferPrice) in
  let sellTrigger :=
    negb lastTradeIsBuy && bool_decide (offerPrice < tradePrice)
      && bool_decide (closestOfferPrice < offerPrice) in
  if firstIter || buyTrigger || sellTrigger
  then (offerPrice, offerLastPrice)
  else acc.

Definition scanEntries (tradePrice : Qc) (lastTradeIsBuy : bool)
    (entries : list (Qc * Qc)) : Qc * Qc :=
  foldl (scanStep tradePrice lastTradeIsBuy) (unknownPrice, unknownPrice)
    entries.

(** The world outside the provider: the trade fetcher's own state, and the
    cursors of the [GetTradeHistory] calls made so far, latest first. *)
Record World (Fetcher : Type) : Type := mkWorld {
  fetcher : Fetcher;
  fetched : list string
}.
Arguments mkWorld {Fetcher} fetcher fetched.
Arguments fetcher {Fetcher} w.
Arguments fetched {Fetcher} w.

(** What one pass through the body of the polling loop decides. *)
Inductive pollStep : Type :=
  | PollReturn (r : result (Qc * string * bool))
  | PollAgain (lastPrice : Qc) (lastCursor : string) (lastIsBuy : bool).

(** The variables of the level loop: [newPrice], [baseExposed], [levels],
    and the global [price2LastPrice]. *)
Record loopState : Type := mkLoop {
  newPrice : Qc;
  baseExposed : Qc;
  levels : list Level;
  price2LastPrice : gmap Qc Qc
}.

Section Provider.

(** The external trade history source: [GetTradeHistory(pair, cursor, nil)]
    answers with a page of trades, oldest first, or an error, and may change
    the source's own state. *)
Context {Fetcher : Type}.
Variable GetTradeHistory :
  Fetcher → TradingPair → string → result (list Trade) * Fetcher.

(** [model.NumberFromFloat(x, utils.SdexPrecision).AsFloat()]: the price or
    amount [x] at the exchange's precision. *)
Variable quantize : Qc → Qc.

(** The order in which a [range] loop visits the entries of the map; Go
    leaves it unspecified. *)
Variable rangeOrder : gmap Qc Qc → list (Qc * Qc).

Definition callGetTradeHistory (w : World Fetcher) (pair : TradingPair)
    (cursor : string) : result (list Trade) * World Fetcher :=
  let '(r, f) := GetTradeHistory (fetcher w) pair cursor in
  (r, mkWorld f (cursor :: fetched w)).

(** [getLastPriceFromMap]; [tradePrice] is [mapKey.AsFloat()]. *)
Definition getLastPriceFromMap (m : gmap Qc Qc) (tradePrice : Qc)
    (lastTradeIsBuy : bool) : Qc :=
  match m !! tradePrice with
  | Some lp => lp
  | None => snd (scanEntries tradePrice lastTradeIsBuy (rangeOrder m))
  end.

(** The cursor after [lastTrade]: under [IsCcxtTradeHistoryHack] the order's
    timestamp plus one (the adapter's cursor is inclusive), else the trade's
    transaction identifier. *)
Definition nextCursor (hack : bool) (lastTrade : Trade) : result string :=
  if hack then
    match Atoi (OrderTimestamp lastTrade) with
    | Err e =>
        Err ("unable to convert order timestamp to integer for binance cursor: "
             +:+ e)
    | Ok i64Cursor => Ok (FormatInt (wrapInt64 (i64Cursor + 1)))
    end
  else Ok (TransactionID lastTrade).

(** The body of the [for] loop of [fetchLatestTradePrice]. *)
Definition pollOnce (hack : bool) (pair : TradingPair) (w : World Fetcher)
    (lastPrice : Qc) (lastCursor : string) (lastIsBuy : bool)
    : pollStep * World Fetcher :=
  let '(r, w') := callGetTradeHistory w pair lastCursor in
  match r with
  | Err e =>
      (PollReturn (Err ("error in tradeFetcher.GetTradeHistory: " +:+ e)), w')
  | Ok trades =>
      match last trades with
      | None => (PollReturn (Ok (lastPrice, lastCursor, lastIsBuy)), w')
      | Some lastTrade =>
          match nextCursor hack lastTrade with
          | Err e => (PollReturn (Err e), w')
          | Ok c =>
              let lastIsBuy' :=
                match TradeOrderAction lastTrade with
                | OrderActionBuy => true
                | OrderActionSell => false
                end in
              (PollAgain (TradePrice lastTrade) c lastIsBuy', w')
          end
      end
  end.

(** The polling loop; it ends when a page is empty or an error occurs, which
    is up to the trade history source: [None] is a loop still running after
    [fuel] pages. *)
Fixpoint pollLoop (fuel : nat) (hack : bool) (pair : TradingPair)
    (w : World Fetcher) (lastPrice : Qc) (lastCursor : string)
    (lastIsBuy : bool)
    : option (result (Qc * string * bool) * World Fetcher) :=
  match fuel with
  | O => None
  | S fuel' =>
      match pollOnce hack pair w lastPrice lastCursor lastIsBuy with
      | (PollReturn r, w') => Some (r, w')
      | (PollAgain lp lc lb, w') => pollLoop fuel' hack pair w' lp lc lb
      end
  end.

Definition fetchLatestTradePrice (fuel : nat) (hack : bool)
    (p : swingLevelProvider) (w : World Fetcher)
    : option (result (Qc * string * bool) * World Fetcher) :=
  pollLoop fuel hack (tradingPair p) w (lastTradePrice p) (lastTradeCursor p)
    false.

(** The state of the polling loop after [k] pages that each brought trades
    (and a usable cursor); [None] if the loop ended earlier. *)
Fixpoint afterPages (k : nat) (hack : bool) (pair : TradingPair)
    (w : World Fetcher) (lastPrice : Qc) (lastCursor : string)
    (lastIsBuy : bool) : option (World Fetcher * Qc * string * bool) :=
  match k with
  | O => Some (w, lastPrice, lastCursor, lastIsBuy)
  | S k' =>
      match pollOnce hack pair w lastPrice lastCursor lastIsBuy with
      | (PollReturn _, _) => None
      | (PollAgain lp lc lb, w') => afterPages k' hack pair w' lp lc lb
      end
  end.

(** The update of the swing state after a successful poll. *)
Definition reconcile (p : swingLevelProvider) (m : gmap Qc Qc)
    (lastPrice : Qc) (lastCursor : string) (lastIsBuy : bool)
    : swingLevelProvider :=
  if isFirstTradeHistoryRun p then setCursor (clearFirstRun p) lastCursor
  else if decide (lastCursor = lastTradeCursor p) then p
  else
    let mapKey := quantize lastPrice in
    setLastTradePrice (setCursor p lastCursor)
      (getLastPriceFromMap m mapKey lastIsBuy).

(** One iteration of the level loop; [None] is a [break]. *)
Definition levelStep (p : swingLevelProvider) (maxAssetBase : Qc)
    (st : loopState) : option loopState :=
  let newPrice := newPrice st * (1 + spread p / frac 2 1) in
  let priceToUse := newPrice * (1 + offsetSpread p / frac 2 1) in
  let expectedBaseUsage :=
    if useMaxQuoteInTargetAmountCalc p then amountBase p / priceToUse
    else amountBase p in
  let expectedEndingBase :=
    maxAssetBase - baseExposed st - expectedBaseUsage in
  if decide (expectedEndingBase <= minBase p) then None
  else if useMaxQuoteInTargetAmountCalc p
          && bool_decide (1 / priceToUse < priceLimit p) then None
  else if negb (useMaxQuoteInTargetAmountCalc p)
          && bool_decide (priceLimit p < priceToUse) then None
  else
    let level := mkLevel (quantize priceToUse) (quantize (amountBase p)) in
    let mapKey :=
      if useMaxQuoteInTargetAmountCalc p then quantize (1 / priceToUse)
      else quantize priceToUse in
    let mapValue :=
      if useMaxQuoteInTargetAmountCalc p then 1 / newPrice else newPrice in
    Some (mkLoop newPrice (baseExposed st + expectedBaseUsage)
            (levels st ++ [level])
            (<[mapKey := mapValue]> (price2LastPrice st))).

(** At most [n] iterations of the level loop. *)
Fixpoint levelLoop (n : nat) (p : swingLevelProvider) (maxAssetBase : Qc)
    (st : loopState) : loopState :=
  match n with
  | O => st
  | S n' =>
      match levelStep p maxAssetBase st with
      | None => st
      | Some st' => levelLoop n' p maxAssetBase st'
      end
  end.

(** [GetLevels].  The result comes with the provider, the global map and the
    world as the call leaves them; [hack] is the global
    [IsCcxtTradeHistoryHack]. *)
Definition GetLevels (fuel : nat) (hack : bool) (p : swingLevelProvider)
    (m : gmap Qc Qc) (w : World Fetcher) (maxAssetBase maxAssetQuote : Qc)
    : option (result (list Level) * swingLevelProvider * gmap Qc Qc
              * World Fetcher) :=
  if decide (maxAssetBase <= minBase p) then Some (Ok [], p, m, w)
  else
    match fetchLatestTradePrice fuel hack p w with
    | None => None
    | Some (Err e, w') =>
        Some (Err ("error in fetchLatestTradePrice: " +:+ e), p, m, w')
    | Some (Ok (lastPrice, lastCursor, lastIsBuy), w') =>
        let p' := reconcile p m lastPrice lastCursor lastIsBuy in
        let newPrice :=
          if useMaxQuoteInTargetAmountCalc p' then 1 / lastTradePrice p'
          else lastTradePrice p' in
        let st :=
          levelLoop (Z.to_nat (maxLevels p')) p' maxAssetBase
            (mkLoop newPrice 0 [] m) in
        Some (Ok (levels st), p', price2LastPrice st, w')
    end.

End Provider.

(** *** Closed forms of the quantities of the level loop

    The values the loop variables take in iteration [i] (counted from 1) when
    no earlier iteration left the loop, for the provider as reconciliation
    leaves it. *)


(** [newPrice] before the loop. *)
Definition startPrice (p : swingLevelProvider) : Qc :=
  if useMaxQuoteInTargetAmountCalc p then 1 / lastTradePrice p
  else lastTradePrice p.

(** [newPrice] in iteration [i]: compounded [i] times. *)
Definition swingAt (p : swingLevelProvider) (i : nat) : Qc :=
  startPrice p * (1 + spread p / frac 2 1) ^ i.

(** [priceToUse] in iteration [i]. *)
Definition priceToUseAt (p : swingLevelProvider) (i : nat) : Qc :=
  swingAt p i * (1 + offsetSpread p / frac 2 1).

(** [mapKey.AsFloat()] and [mapValue] in iteration [i]. *)
Definition mapKeyAt (quantize : Qc → Qc) (p : swingLevelProvider) (i : nat)
    : Qc :=
  if useMaxQuoteInTargetAmountCalc p then quantize (1 / priceToUseAt p i)
  else quantize (priceToUseAt p i).

Definition mapValueAt (p : swingLevelProvider) (i : nat) : Qc :=
  if useMaxQuoteInTargetAmountCalc p then 1 / swingAt p i else swingAt p i.

(** The level appended in iteration [i]. *)
Definition levelAt (quantize : Qc → Qc) (p : swingLevelProvider) (i : nat)
    : Level :=
  mkLevel (quantize (priceToUseAt p i)) (quantize (amountBase p)).

(** [expectedBaseUsage] in iteration [i], and [baseExposed] after [j]
    iterations. *)
Definition usageAt (p : swingLevelProvider) (i : nat) : Qc :=
  if useMaxQuoteInTargetAmountCalc p then amountBase p / priceToUseAt p i
  else amountBase p.

Definition exposedAt (p : swingLevelProvider) (j : nat) : Qc :=
  foldl Qcplus 0 (usageAt p <$> seq 1 j).

(** The map after the upserts of iterations [1..j]. *)
Definition mapAt (quantize : Qc → Qc) (p : swingLevelProvider)
    (m : gmap Qc Qc) (j : nat) : gmap Qc Qc :=
  foldl (λ acc i, <[mapKeyAt quantize p i := mapValueAt p i]> acc) m
    (seq 1 j).

(** The loop variables after [j] iterations. *)
Definition stateAt (quantize : Qc → Qc) (p : swingLevelProvider)
    (m : gmap Qc Qc) (j : nat) : loopState :=
  mkLoop (swingAt p j) (exposedAt p j) (levelAt quantize p <$> seq 1 j)
    (mapAt quantize p m j).

(** Whether iteration [i] leaves the loop: the three [break]s. *)
Definition exitsAt (p : swingLevelProvider) (maxAssetBase : Qc) (i : nat)
    : bool :=
  bool_decide
    (maxAssetBase - exposedAt p (pred i) - usageAt p i <= minBase p)
  || (useMaxQuoteInTargetAmountCalc p
      && bool_decide (1 / priceToUseAt p i < priceLimit p))
  || (negb (useMaxQuoteInTargetAmountCalc p)
      && bool_decide (priceLimit p < priceToUseAt p i)).

(** *** Instances used to evaluate the provider *)

(** Modelled from the spec: quantization of a price or an amount, here
    decimal rounding to the seven places of [utils.SdexPrecision], half away
    from zero.  [model.NumberFromFloat] is not among the sources. *)
Definition roundToPrecision (x : Qc) : Qc :=
  let scaled := (x * frac 10000000 1)%Qc in
  let half := frac 1 2 in
  let n :=
    if decide (0 <= scaled) then Qfloor (scaled + half)
    else (- Qfloor (- scaled + half))%Z in
  frac n 10000000.

(** A trade history source that plays a fixed script, one page per call, and
    has caught up (empty pages) once the script is over. *)
Definition scriptedFetcher (script : list (result (list Trade)))
    (pair : TradingPair) (cursor : string)
    : result (list Trade) * list (result (list Trade)) :=
  match script with
  | [] => (Ok [], [])
  | page :: rest => (page, rest)
  end.

(** One order in which the entries of a map can be visited. *)
Definition keyOrder (m : gmap Qc Qc) : list (Qc * Qc) := map_to_list m.

End Swing.

(** ** Notions used to state properties of the swing level provider *)
Module SwingNotions.

(** An offer price lies on the side of the trade price that the direction of
    the trade asks for: above it after a buy, below it after a sell. *)
Definition onSide (tradePrice : Qc) (lastTradeIsBuy : bool) (k : Qc) : Prop :=
  if lastTradeIsBuy then tradePrice < k else k < tradePrice.

(** Of two offer prices on that side, [c] is at least as near to the trade
    price as [k]. *)
Definition nearer (lastTradeIsBuy : bool) (c k : Qc) : Prop :=
  if lastTradeIsBuy then c <= k else k <= c.

End SwingNotions.

(** ** sdk: the client of the CCXT REST server *)
Module Ccxt.

(** [api.ExchangeAPIKey]. *)
Record ExchangeAPIKey : Type := mkAPIKey {
  Key : string;
  Secret : string
}.

(** [Ccxt]; its [httpClient] is always [http.DefaultClient]. *)
Record Ccxt : Type := mkCcxt {
  ccxtBaseURL : string;
  exchangeName : string;
  instanceName : string
}.

Definition pathExchanges : string := "/exchanges".

(** [strings.HasSuffix]. *)
Definition HasSuffix (s suffix : string) : bool :=
  bool_decide (String.length suffix ≤ String.length s)%nat
  && bool_decide
       (String.substring (String.length s - String.length suffix)
          (String.length suffix) s = suffix).

(** *** [hash/fnv]: the 32-bit FNV-1a hash *)

Definition fnvOffset32 : Z := 2166136261.
Definition fnvPrime32 : Z := 16777619.

(** [Write] on the hash state: for every byte, xor, then multiply modulo
    [2^32]. *)
Fixpoint fnv32aWrite (hash : Z) (s : string) : Z :=
  match s with
  | EmptyString => hash
  | String c rest =>
      fnv32aWrite
        ((Z.lxor hash (Z.of_nat (nat_of_ascii c)) * fnvPrime32) `mod` 2 ^ 32)
        rest
  end.

(** [hashString]; the [Write] of a hash never returns an error. *)
Definition hashString (s : string) : result Z :=
  Ok (fnv32aWrite fnvOffset32 s).

Definition makeInstanceName (exchangeName : string) (apiKey : ExchangeAPIKey)
    : result string :=
  if decide (Key apiKey = "") then Ok exchangeName
  else
    match hashString (Key apiKey) with
    | Err e => Err ("could not hash apiKey.Key: " +:+ e)
    | Ok number => Ok (exchangeName +:+ pretty number)
    end.

Definition hasInstance (c : Ccxt) (instanceList : list string) : bool :=
  existsb (λ i, bool_decide (i = instanceName c)) instanceList.

(** *** Values and requests *)

(** What [encoding/json] decodes into an [interface{}]. *)
#[warnings="-register-all"]
Inductive json : Type :=
  | JNull
  | JBool (b : bool)
  | JNumber (x : Qc)
  | JString (s : string)
  | JArray (items : list json)
  | JObject (fields : gmap string json).

(** [CcxtOrder] and [CcxtTrade]. *)
Record CcxtOrder : Type := mkCcxtOrder {
  OrderPrice : Qc;
  OrderAmount : Qc
}.

Record CcxtTrade : Type := mkCcxtTrade {
  TradeAmount : Qc;
  TradeCost : Qc;
  TradeDatetime : string;
  TradeID : string;
  TradePrice : Qc;
  TradeSide : string;
  TradeSymbol : string;
  TradeTimestamp : Z
}.

(** A call of [networking.JSONRequest]: method, URL and body (the headers
    are always empty). *)
Record Request : Type := mkRequest {
  method : string;
  url : string;
  data : string
}.

(** Go's outcomes of a function that returns [(value, error)] and may panic
    on a failed type assertion or an index out of range. *)
Inductive outcome (A : Type) : Type :=
  | Returns (r : result A)
  | Panics.
Arguments Returns {A} r.
Arguments Panics {A}.

(** The collaborators outside the package: [networking.JSONRequest], by the
    type of the value the answer is decoded into, and [json.Marshal], by the
    value marshalled.  A request may change the state [Net] of the server. *)
Record Networking (Net : Type) : Type := mkNetworking {
  requestStrings : Net → Request → result (list string) * Net;
  requestObject : Net → Request → result (gmap string json) * Net;
  requestValue : Net → Request → result json * Net;
  requestTrades : Net → Request → result (list CcxtTrade) * Net;
  requestNothing : Net → Request → result () * Net;
  marshalStrings : list string → result string;
  marshalInstance : string → string → string → result string
}.
Arguments requestStrings {Net} n.
Arguments requestObject {Net} n.
Arguments requestValue {Net} n.
Arguments requestTrades {Net} n.
Arguments requestNothing {Net} n.
Arguments marshalStrings {Net} n.
Arguments marshalInstance {Net} n.

(** The server's state and the requests sent so far, latest first. *)
Record Remote (Net : Type) : Type := mkRemote {
  net : Net;
  sent : list Request
}.
Arguments mkRemote {Net} net sent.
Arguments net {Net} r.
Arguments sent {Net} r.

Section Client.

Context {Net : Type}.
Variable N : Networking Net.

(** Send a request through one of the [JSONRequest] collaborators. *)
Definition send {A : Type} (ask : Net → Request → result A * Net)
    (r : Remote Net) (q : Request) : result A * Remote Net :=
  let '(a, n) := ask (net r) q in (a, mkRemote n (q :: sent r)).

Definition newInstance (c : Ccxt) (apiKey : ExchangeAPIKey) (r : Remote Net)
    : result () * Remote Net :=
  match marshalInstance N (instanceName c) (Key apiKey) (Secret apiKey) with
  | Err e =>
      (Err ("error marshaling instanceName '" +:+ instanceName c
            +:+ "' as ID for exchange '" +:+ exchangeName c +:+ "': " +:+ e),
       r)
  | Ok body =>
      let '(a, r1) :=
        send (requestObject N) r
          (mkRequest "POST"
             (ccxtBaseURL c +:+ pathExchanges +:+ "/" +:+ exchangeName c)
             body) in
      match a with
      | Err e =>
          (Err ("error in web request when creating new exchange instance "
                +:+ "for exchange '" +:+ exchangeName c +:+ "': " +:+ e),
           r1)
      | Ok newInstance =>
          match newInstance !! "urls" with
          | None =>
              (Err ("check for new instance of exchange '" +:+ exchangeName c
                    +:+ "' failed for instanceName: " +:+ instanceName c),
               r1)
          | Some _ => (Ok (), r1)
          end
      end
  end.

(** [init]. *)
Definition init (c : Ccxt) (apiKey : ExchangeAPIKey) (r : Remote Net)
    : result () * Remote Net :=
  let '(a, r1) :=
    send (requestStrings N) r
      (mkRequest "GET" (ccxtBaseURL c +:+ pathExchanges) "") in
  match a with
  | Err e =>
      (Err ("error getting list of supported exchanges by CCXT: " +:+ e), r1)
  | Ok exchangeList =>
      if negb (existsb (λ name, bool_decide (name = exchangeName c))
                 exchangeList)
      then
        (Err ("exchange name '" +:+ exchangeName c
              +:+ "' is not in the list of "
              +:+ pretty (length exchangeList) +:+ " exchanges available"),
         r1)
      else
        let '(b, r2) :=
          send (requestStrings N) r1
            (mkRequest "GET"
               (ccxtBaseURL c +:+ pathExchanges +:+ "/" +:+ exchangeName c)
               "") in
        match b with
        | Err e =>
            (Err ("error getting list of exchange instances for exchange '"
                  +:+ exchangeName c +:+ "': " +:+ e), r2)
        | Ok instanceList =>
            let '(created, r3) :=
              if negb (hasInstance c instanceList)
              then newInstance c apiKey r2
              else (Ok (), r2) in
            match created with
            | Err e =>
                (Err ("error creating new instance '" +:+ instanceName c
                      +:+ "' for exchange '" +:+ exchangeName c +:+ "': "
                      +:+ e), r3)
            | Ok _ =>
                let '(d, r4) :=
                  send (requestNothing N) r3
                    (mkRequest "POST"
                       (ccxtBaseURL c +:+ pathExchanges +:+ "/"
                        +:+ exchangeName c +:+ "/" +:+ instanceName c
                        +:+ "/loadMarkets") "") in
                match d with
                | Err e =>
                    (Err ("error loading markets for exchange instance "
                          +:+ "(exchange=" +:+ exchangeName c
                          +:+ ", instanceName=" +:+ instanceName c +:+ "): "
                          +:+ e), r4)
                | Ok _ => (Ok (), r4)
                end
            end
        end
  end.

Definition MakeInitializedCcxtExchange (ccxtBaseURL exchangeName : string)
    (apiKey : ExchangeAPIKey) (r : Remote Net)
    : result Ccxt * Remote Net :=
  if HasSuffix ccxtBaseURL "/"
  then (Err ("invalid format for ccxtBaseURL: " +:+ ccxtBaseURL), r)
  else
    match makeInstanceName exchangeName apiKey with
    | Err e => (Err ("cannot make instance name: " +:+ e), r)
    | Ok instanceName =>
        let c := mkCcxt ccxtBaseURL exchangeName instanceName in
        let '(a, r1) := init c apiKey r in
        match a with
        | Err e =>
            (Err ("error when initializing Ccxt exchange: " +:+ e), r1)
        | Ok _ => (Ok c, r1)
        end
    end.

(** The loop of [symbolExists] over the list of symbols: [Some true] when
    the trading pair is met, [Some false] at the end of the list, [None]
    when an element met before is no string (the assertion panics). *)
Fixpoint findSymbol (tradingPair : string) (symbolsList : list json)
    : option bool :=
  match symbolsList with
  | [] => Some false
  | JString symbol :: rest =>
      if decide (tradingPair = symbol) then Some true
      else findSymbol tradingPair rest
  | _ :: _ => None
  end.

Definition instanceURL (c : Ccxt) : string :=
  ccxtBaseURL c +:+ pathExchanges +:+ "/" +:+ exchangeName c +:+ "/"
  +:+ instanceName c.

(** [symbolExists]: an error if the symbol does not exist. *)
Definition symbolExists (c : Ccxt) (tradingPair : string) (r : Remote Net)
    : outcome () * Remote Net :=
  let '(a, r1) :=
    send (requestValue N) r (mkRequest "GET" (instanceURL c) "") in
  match a with
  | Err e =>
      (Returns
         (Err ("error fetching details of exchange instance (exchange="
               +:+ exchangeName c +:+ ", instanceName=" +:+ instanceName c
               +:+ "): " +:+ e)), r1)
  | Ok (JObject exchangeMap) =>
      match exchangeMap !! "symbols" with
      | None =>
          (Returns
             (Err ("'symbols' field not in result of exchange details "
                   +:+ "(exchange=" +:+ exchangeName c +:+ ", instanceName="
                   +:+ instanceName c +:+ ")")), r1)
      | Some (JArray symbolsList) =>
          match findSymbol tradingPair symbolsList with
          | None => (Panics, r1)
          | Some true => (Returns (Ok ()), r1)
          | Some false =>
              (Returns
                 (Err ("trading pair '" +:+ tradingPair
                       +:+ "' does not exist in the list of "
                       +:+ pretty (length symbolsList)
                       +:+ " symbols on exchange '" +:+ exchangeName c
                       +:+ "'")), r1)
          end
      | Some _ => (Panics, r1)
      end
  | Ok _ => (Panics, r1)
  end.

(** [FetchTicker]. *)
Definition FetchTicker (c : Ccxt) (tradingPair : string) (r : Remote Net)
    : outcome (gmap string json) * Remote Net :=
  match symbolExists c tradingPair r with
  | (Panics, r1) => (Panics, r1)
  | (Returns (Err e), r1) =>
      (Returns (Err ("symbol does not exist: " +:+ e)), r1)
  | (Returns (Ok _), r1) =>
      match marshalStrings N [tradingPair] with
      | Err e =>
          (Returns
             (Err ("error marshaling tradingPair '" +:+ tradingPair
                   +:+ "' as an array for exchange '" +:+ exchangeName c
                   +:+ "': " +:+ e)), r1)
      | Ok body =>
          let '(a, r2) :=
            send (requestValue N) r1
              (mkRequest "POST" (instanceURL c +:+ "/fetchTicker") body) in
          match a with
          | Err e =>
              (Returns
                 (Err ("error fetching tickers for trading pair '"
                       +:+ tradingPair +:+ "': " +:+ e)), r2)
          | Ok (JObject tickerMap) => (Returns (Ok tickerMap), r2)
          | Ok _ => (Panics, r2)
          end
      end
  end.

(** One order of the book: a list whose first two elements are numbers. *)
Definition parseOrder (o : json) : option CcxtOrder :=
  match o with
  | JArray (JNumber p :: JNumber a :: _) => Some (mkCcxtOrder p a)
  | _ => None
  end.

(** The inner loop of [FetchOrderBook]; [None] is a panic. *)
Fixpoint parseOrders (ordersList : list json) : option (list CcxtOrder) :=
  match ordersList with
  | [] => Some []
  | o :: rest =>
      order ← parseOrder o;
      parsed ← parseOrders rest;
      Some (order :: parsed)
  end.

(** The outer loop of [FetchOrderBook], over the entries of the answer in
    the order the [range] visits them. *)
Fixpoint parseBook (entries : list (string * json))
    (acc : gmap string (list CcxtOrder))
    : option (gmap string (list CcxtOrder)) :=
  match entries with
  | [] => Some acc
  | (k, v) :: rest =>
      if bool_decide (k ≠ "asks") && bool_decide (k ≠ "bids")
      then parseBook rest acc
      else
        match v with
        | JArray ordersList =>
            parsedList ← parseOrders ordersList;
            parseBook rest (<[k := parsedList]> acc)
        | _ => None
        end
  end.

(** The order in which a [range] loop visits the entries of a decoded
    object; Go leaves it unspecified. *)
Variable rangeOrder : gmap string json → list (string * json).

(** [FetchOrderBook]; [limit] is the nil-able [*int]. *)
Definition FetchOrderBook (c : Ccxt) (tradingPair : string)
    (limit : option Z) (r : Remote Net)
    : outcome (gmap string (list CcxtOrder)) * Remote Net :=
  match symbolExists c tradingPair r with
  | (Panics, r1) => (Panics, r1)
  | (Returns (Err e), r1) =>
      (Returns (Err ("symbol does not exist: " +:+ e)), r1)
  | (Returns (Ok _), r1) =>
      let marshalled :=
        match limit with
        | Some l =>
            match marshalStrings N [tradingPair; pretty l] with
            | Err e =>
                Err ("error marshaling tradingPair '" +:+ tradingPair
                     +:+ "' as an array for exchange '" +:+ exchangeName c
                     +:+ "' with limit=" +:+ pretty l +:+ ": " +:+ e)
            | Ok body => Ok body
            end
        | None =>
            match marshalStrings N [tradingPair] with
            | Err e =>
                Err ("error marshaling tradingPair '" +:+ tradingPair
                     +:+ "' as an array for exchange '" +:+ exchangeName c
                     +:+ "' with no limit: " +:+ e)
            | Ok body => Ok body
            end
        end in
      match marshalled with
      | Err e => (Returns (Err e), r1)
      | Ok body =>
          let '(a, r2) :=
            send (requestValue N) r1
              (mkRequest "POST" (instanceURL c +:+ "/fetchOrderBook") body) in
          match a with
          | Err e =>
              (Returns
                 (Err ("error fetching orderbook for trading pair '"
                       +:+ tradingPair +:+ "': " +:+ e)), r2)
          | Ok (JObject tickerMap) =>
              match parseBook (rangeOrder tickerMap) ∅ with
              | None => (Panics, r2)
              | Some book => (Returns (Ok book), r2)
              end
          | Ok _ => (Panics, r2)
          end
      end
  end.

(** [FetchTrades]. *)
Definition FetchTrades (c : Ccxt) (tradingPair : string) (r : Remote Net)
    : outcome (list CcxtTrade) * Remote Net :=
  match symbolExists c tradingPair r with
  | (Panics, r1) => (Panics, r1)
  | (Returns (Err e), r1) =>
      (Returns (Err ("symbol does not exist: " +:+ e)), r1)
  | (Returns (Ok _), r1) =>
      match marshalStrings N [tradingPair] with
      | Err e =>
          (Returns
             (Err ("error marshaling input (tradingPair=" +:+ tradingPair
                   +:+ ") as an array for exchange '" +:+ exchangeName c
                   +:+ "': " +:+ e)), r1)
      | Ok body =>
          let '(a, r2) :=
            send (requestTrades N) r1
              (mkRequest "POST" (instanceURL c +:+ "/fetchTrades") body) in
          match a with
          | Err e =>
              (Returns
                 (Err ("error fetching trades for trading pair '"
                       +:+ tradingPair +:+ "': " +:+ e)), r2)
          | Ok output => (Returns (Ok output), r2)
          end
      end
  end.

End Client.

End Ccxt.

(** ** Sample values, used to evaluate the definitions *)
Module Samples.

Definition pair : TradingPair := mkTradingPair "XLM" "USD".

(** A sell-side provider: spread 0.02, no offset, amounts of 1.0, three
    levels, swing price 2.0, price limit 10.0, nothing kept back, cursor
    c0. *)
Definition seller : Swing.swingLevelProvider :=
  Swing.makeSwingLevelProvider (frac 2 100) 0 false (frac 1 1) 3 (frac 2 1)
    (frac 10 1) 0 pair "c0".

(** A world whose trade history source plays [script]. *)
Definition world (script : list (result (list Swing.Trade)))
    : Swing.World (list (result (list Swing.Trade))) :=
  Swing.mkWorld script [].

(** [GetLevels] for 100 units of base, with fuel for [fuel] pages. *)
Definition run (fuel : nat) (hack : bool) (p : Swing.swingLevelProvider)
    (m : gmap Qc Qc) (w : Swing.World (list (result (list Swing.Trade))))
    : option (result (list Swing.Level) * Swing.swingLevelProvider
              * gmap Qc Qc * Swing.World (list (result (list Swing.Trade)))) :=
  Swing.GetLevels Swing.scriptedFetcher Swing.roundToPrecision Swing.keyOrder
    fuel hack p m w (frac 100 1) 0.

End Samples.

(** ** A sample CCXT REST server, used to evaluate the client *)
Module CcxtSamples.

Definition base : string := "http://localhost:3000".

(** The server lists two exchanges, has the instance "binance" of every
    exchange, two symbols for every instance, and a book with one ask and
    one bid (and a nonce); creating an instance answers with its URLs. *)
Definition details : Ccxt.json :=
  Ccxt.JObject
    {["symbols" :=
        Ccxt.JArray [Ccxt.JString "BTC/USDT"; Ccxt.JString "XLM/USDT"]]}.

Definition book : Ccxt.json :=
  Ccxt.JObject
    (<["asks" :=
         Ccxt.JArray
           [Ccxt.JArray [Ccxt.JNumber (frac 11 100); Ccxt.JNumber (frac 5 1)]]]>
       (<["bids" :=
            Ccxt.JArray
              [Ccxt.JArray
                 [Ccxt.JNumber (frac 10 100); Ccxt.JNumber (frac 7 1)]]]>
          {["nonce" := Ccxt.JNumber (frac 42 1)]})).

Definition server : Ccxt.Networking () :=
  Ccxt.mkNetworking ()
    (λ n q,
       if decide (Ccxt.url q = base +:+ Ccxt.pathExchanges)
       then (Ok ["binance"; "kraken"], n)
       else (Ok ["binance"], n))
    (λ n q, (Ok {["urls" := Ccxt.JNull]}, n))
    (λ n q,
       if decide (Ccxt.method q = "GET") then (Ok details, n)
       else (Ok book, n))
    (λ n q, (Ok [], n))
    (λ n q, (Ok (), n))
    (λ l, Ok (String.concat "," l))
    (λ id key secret, Ok (id +:+ ":" +:+ key +:+ ":" +:+ secret)).

Definition fresh : Ccxt.Remote () := Ccxt.mkRemote () [].

Definition noKey : Ccxt.ExchangeAPIKey := Ccxt.mkAPIKey "" "".

Definition binance : Ccxt.Ccxt := Ccxt.mkCcxt base "binance" "binance".

(** A [range] order for decoded objects. *)
Definition fieldOrder (m : gmap string Ccxt.json)
    : list (string * Ccxt.json) :=
  map_to_list m.

End CcxtSamples.

(** * Properties *)

(** ** Arithmetic on canonical rationals *)

(** Restate a goal on [Qc] over [Q], where [lra] applies. *)
Ltac qc_to_q :=
  repeat match goal with
  | |- @eq Qc _ _ => apply Qc_is_canon
  end;
  unfold Qcle, Qclt, Qcminus, Qcplus, Qcmult, Qcopp, Q2Qc in *;
  simpl this in *;
  rewrite ?Qred_correct in *.

Ltac qc_lra := qc_to_q; lra.

(** Close a goal between closed rationals by evaluation. *)
Ltac qc_eval :=
  repeat match goal with
  | |- _ ∧ _ => split
  | |- @eq Qc _ _ => apply Qc_is_canon
  end;
  vm_compute; (reflexivity || congruence || tauto).

Lemma Qc_pos_neq_0 (x : Qc) : 0 < x → x ≠ 0.
Proof. intros H ->. revert H. by vm_compute. Qed.

Lemma Qc_div_mul_cancel (b c : Qc) : 0 < c → b / c * c = b.
Proof. intros Hc. field. by apply Qc_pos_neq_0. Qed.

Lemma Qc_le_div_mul (a b c : Qc) : 0 < c → a <= b / c → a * c <= b.
Proof.
  intros Hc H.
  rewrite <- (Qc_div_mul_cancel b c Hc).
  apply Qcmult_le_compat_r; [done | by apply Qclt_le_weak].
Qed.

Lemma Qc_div_nonpos (b c : Qc) : 0 < c → b <= 0 → b / c <= 0.
Proof.
  intros Hc Hb.
  destruct (decide (b / c <= 0)) as [|Hn]; [done|].
  apply Qcnot_le_lt in Hn.
  assert (0 * c < b / c * c) as H.
  { by apply Qcmult_lt_compat_r. }
  rewrite Qc_div_mul_cancel in H by done.
  rewrite Qcmult_0_l in H.
  by apply Qclt_not_le in H.
Qed.

(** ** The submission-mode filter *)

Lemma apply_returns_nothing {SDEX : Type} (f : @Trader.sdexFilter SDEX)
    (ops : list Operation) :
  Trader.apply f ops = Ok [].
Proof. unfold Trader.apply. by destruct (Trader.submitMode f). Qed.

(** C9.  With the maker-only filter the code returns an empty batch whatever
    the input: a sell at 10 resting above a best bid of 5 (best ask 6) does
    not cross the book, and is not in the output. *)
Theorem maker_only_drops_resting_offer :
  let op := mkOperation Sell (frac 10 1) (frac 1 1) in
  Trader.crossesBook (frac 5 1) (frac 6 1) op = false ∧
  (f ← Trader.makeSubmitFilter Trader.SubmitModeMakerOnly tt
         (mkTradingPair "XLM" "USD");
   Some (Trader.apply f [op])) = Some (Ok []).
Proof. split; [by vm_compute | reflexivity]. Qed.

(** C10.  [ParseSubmitMode] answers maker-only and taker-only for exactly
    the strings "maker_only" and "taker_only", and [SubmitModeBoth] for
    every other string; [makeSubmitFilter] builds no filter for
    [SubmitModeBoth], hence none for any unrecognized string. *)
Theorem ParseSubmitMode_unrecognized_means_no_filter :
  ∀ (SDEX : Type) (s : string) (sdex : SDEX) (tp : TradingPair),
    (Trader.ParseSubmitMode s = Trader.SubmitModeMakerOnly
       ↔ s = "maker_only") ∧
    (Trader.ParseSubmitMode s = Trader.SubmitModeTakerOnly
       ↔ s = "taker_only") ∧
    (Trader.ParseSubmitMode s = Trader.SubmitModeBoth
       ↔ s ≠ "maker_only" ∧ s ≠ "taker_only") ∧
    Trader.makeSubmitFilter Trader.SubmitModeBoth sdex tp = None ∧
    (Trader.makeSubmitFilter (Trader.ParseSubmitMode s) sdex tp = None
       ↔ s ≠ "maker_only" ∧ s ≠ "taker_only").
Proof.
  intros SDEX s sdex tp. unfold Trader.ParseSubmitMode.
  destruct (decide (s = "maker_only")) as [->|Hm];
    [|destruct (decide (s = "taker_only")) as [->|Ht]];
    simpl; intuition (discriminate || congruence).
Qed.

Lemma ParseSubmitMode_unrecognized_means_no_filter_witness :
  Trader.ParseSubmitMode "" = Trader.SubmitModeBoth ∧
  Trader.makeSubmitFilter (Trader.ParseSubmitMode "makeronly") tt
    (mkTradingPair "XLM" "USD") = None.
Proof.
  split.
  - apply (ParseSubmitMode_unrecognized_means_no_filter unit "" tt
             (mkTradingPair "XLM" "USD")).
    split; discriminate.
  - apply (ParseSubmitMode_unrecognized_means_no_filter unit "makeronly" tt
             (mkTradingPair "XLM" "USD")).
    split; discriminate.
Defined.

(** ** The volume admission filter *)

Section VolumeFilterFacts.

Import VolumeFilter.

Variable roundDownToTick : Qc → Qc.

Lemma Qcmin_le_l (x y : Qc) : Qcmin x y <= x.
Proof.
  unfold Qcmin. case_decide as H; [apply Qcle_refl|].
  by apply Qclt_le_weak, Qcnot_le_lt.
Qed.

Lemma Qcmin_le_r (x y : Qc) : Qcmin x y <= y.
Proof. unfold Qcmin. by case_decide. Qed.

Lemma capTo_le (a : Qc) (bound : option Qc) : capTo a bound <= a.
Proof. destruct bound; simpl; [apply Qcmin_le_l | apply Qcle_refl]. Qed.

Lemma capTo_le_bound (a b : Qc) : capTo a (Some b) <= b.
Proof. apply Qcmin_le_r. Qed.

Lemma admissible_le_base (otb tbb : VolumeAccumulator) (op : Operation)
    (lp : limitParameters) (cap : Qc) :
  sellBaseAssetCapInBaseUnits lp = Some cap →
  admissibleAmount otb tbb op lp <= cap - (baseVolume otb + baseVolume tbb).
Proof.
  intros Hcap. unfold admissibleAmount, availableBase. rewrite Hcap. simpl.
  eapply Qcle_trans; [apply capTo_le | apply Qcmin_le_r].
Qed.

Lemma admissible_le_quote (otb tbb : VolumeAccumulator) (op : Operation)
    (lp : limitParameters) (cap : Qc) :
  sellBaseAssetCapInQuoteUnits lp = Some cap →
  admissibleAmount otb tbb op lp
    <= (cap - (quoteVolume otb + quoteVolume tbb)) / price op.
Proof.
  intros Hcap. unfold admissibleAmount, availableQuote. rewrite Hcap. simpl.
  apply Qcmin_le_r.
Qed.

(** The admissible amount written out by configuration. *)
Lemma admissibleAmount_cases (otb tbb : VolumeAccumulator) (op : Operation)
    (lp : limitParameters) :
  admissibleAmount otb tbb op lp =
    match sellBaseAssetCapInBaseUnits lp, sellBaseAssetCapInQuoteUnits lp with
    | Some cb, Some cq =>
        Qcmin (Qcmin (amount op) (cb - (baseVolume otb + baseVolume tbb)))
          ((cq - (quoteVolume otb + quoteVolume tbb)) / price op)
    | Some cb, None =>
        Qcmin (amount op) (cb - (baseVolume otb + baseVolume tbb))
    | None, Some cq =>
        Qcmin (amount op)
          ((cq - (quoteVolume otb + quoteVolume tbb)) / price op)
    | None, None => amount op
    end.
Proof.
  unfold admissibleAmount, availableBase, availableQuote.
  by destruct (sellBaseAssetCapInBaseUnits lp),
    (sellBaseAssetCapInQuoteUnits lp).
Qed.

(** An admission leaves the committed volume within the caps, whatever it
    was before. *)
Lemma admission_within_caps (otb tbb tbb' : VolumeAccumulator)
    (op op' : Operation) (lp : limitParameters) :
  0 < price op →
  volumeFilterFn roundDownToTick otb tbb op lp = (Some op', tbb') →
  withinCaps lp otb tbb'.
Proof.
  intros Hprice. unfold volumeFilterFn.
  case_decide as Hdrop; [discriminate|].
  intros [= _ <-]. split; intros cap Hcap; simpl.
  - pose proof (admissible_le_base otb tbb op lp cap Hcap) as Hle.
    revert Hle. generalize (admissibleAmount otb tbb op lp). intros a Hle.
    qc_lra.
  - pose proof (admissible_le_quote otb tbb op lp cap Hcap) as Hle.
    apply (Qc_le_div_mul _ _ _ Hprice) in Hle.
    revert Hle.
    generalize (admissibleAmount otb tbb op lp * price op). intros a Hle.
    qc_lra.
Qed.

End VolumeFilterFacts.

(** C1.  The admitted amount is the minimum of the requested amount and of
    what each configured cap leaves, the quote allowance converted with the
    price; on admission TBB grows by the admitted amount in base and by the
    admitted amount times the price in quote, and the operation carries the
    admitted amount (at tick precision when it was reduced). *)
Theorem volumeFilterFn_admits_minimum :
  ∀ (roundDownToTick : Qc → Qc) (otb tbb : VolumeFilter.VolumeAccumulator)
    (op : Operation) (lp : VolumeFilter.limitParameters),
    let usedBase :=
      VolumeFilter.baseVolume otb + VolumeFilter.baseVolume tbb in
    let usedQuote :=
      VolumeFilter.quoteVolume otb + VolumeFilter.quoteVolume tbb in
    let admitted :=
      match VolumeFilter.sellBaseAssetCapInBaseUnits lp,
            VolumeFilter.sellBaseAssetCapInQuoteUnits lp with
      | Some cb, Some cq =>
          VolumeFilter.Qcmin (VolumeFilter.Qcmin (amount op) (cb - usedBase))
            ((cq - usedQuote) / price op)
      | Some cb, None => VolumeFilter.Qcmin (amount op) (cb - usedBase)
      | None, Some cq =>
          VolumeFilter.Qcmin (amount op) ((cq - usedQuote) / price op)
      | None, None => amount op
      end in
    0 < admitted →
    VolumeFilter.volumeFilterFn roundDownToTick otb tbb op lp =
      (Some (mkOperation (side op) (price op)
               (if decide (admitted < amount op)
                then roundDownToTick admitted else amount op)),
       VolumeFilter.mkVolume
         (VolumeFilter.baseVolume tbb + admitted)
         (VolumeFilter.quoteVolume tbb + admitted * price op)).
Proof.
  intros rd otb tbb op lp usedBase usedQuote admitted Hpos.
  unfold VolumeFilter.volumeFilterFn.
  rewrite admissibleAmount_cases. fold usedBase usedQuote admitted.
  case_decide as Hdrop; [by apply Qclt_not_le in Hpos|].
  unfold VolumeFilter.addVolume.
  case_decide; [done | by destruct op].
Qed.

(** Base cap 1.0, OTB = TBB = 0, price 2.0, requested 100.0: 1.0 is
    admitted, TBB becomes (1.0, 2.0); with a quote cap of 1.0 instead, 0.5
    is admitted and TBB becomes (0.5, 1.0). *)
Lemma volumeFilterFn_admits_minimum_witness :
  let zero := VolumeFilter.mkVolume 0 0 in
  let op := mkOperation Sell (frac 2 1) (frac 100 1) in
  let exact := VolumeFilter.volumeFilterModeExact in
  let inBase :=
    VolumeFilter.volumeFilterFn VolumeFilter.floorToTick zero zero op
      (VolumeFilter.mkLimits (Some (frac 1 1)) None exact) in
  let inQuote :=
    VolumeFilter.volumeFilterFn VolumeFilter.floorToTick zero zero op
      (VolumeFilter.mkLimits None (Some (frac 1 1)) exact) in
  (amount <$> fst inBase = Some (frac 1 1) ∧
   VolumeFilter.baseVolume (snd inBase) = frac 1 1 ∧
   VolumeFilter.quoteVolume (snd inBase) = frac 2 1) ∧
  (amount <$> fst inQuote = Some (frac 1 2) ∧
   VolumeFilter.baseVolume (snd inQuote) = frac 1 2 ∧
   VolumeFilter.quoteVolume (snd inQuote) = frac 1 1).
Proof.
  intros zero op exact inBase inQuote. split.
  - subst inBase.
    rewrite (volumeFilterFn_admits_minimum VolumeFilter.floorToTick zero zero
               op (VolumeFilter.mkLimits (Some (frac 1 1)) None exact));
      [|by vm_compute].
    simpl. repeat split; [f_equal|..]; apply Qc_is_canon; by vm_compute.
  - subst inQuote.
    rewrite (volumeFilterFn_admits_minimum VolumeFilter.floorToTick zero zero
               op (VolumeFilter.mkLimits None (Some (frac 1 1)) exact));
      [|by vm_compute].
    simpl. repeat split; [f_equal|..]; apply Qc_is_canon; by vm_compute.
Defined.

(** C2.  Whatever the caps, and for every sequence of operations (at
    positive prices) filtered one after another against one OTB snapshot and
    one TBB accumulator: after every admission the committed volume, OTB plus
    TBB, is within the base cap and within the quote cap, where configured. *)
Theorem filterAll_never_exceeds_caps :
  ∀ (roundDownToTick : Qc → Qc) (otb tbb : VolumeFilter.VolumeAccumulator)
    (ops : list Operation) (lp : VolumeFilter.limitParameters),
    Forall (λ op, 0 < price op) ops →
    ∀ (op' : Operation) (tbb' : VolumeFilter.VolumeAccumulator),
      (Some op', tbb') ∈ VolumeFilter.filterAll roundDownToTick otb tbb ops lp →
      VolumeFilter.withinCaps lp otb tbb'.
Proof.
  intros rd otb tbb ops lp Hprices. revert tbb.
  induction Hprices as [|op ops Hprice _ IH]; intros tbb op' tbb' Hin; simpl in Hin.
  - by apply elem_of_nil in Hin.
  - apply elem_of_cons in Hin as [Heq | Hin].
    + by eapply admission_within_caps.
    + by eapply IH.
Qed.

(** Both caps at 1.0, two sells of 100.0 at price 2.0: the first is admitted
    for 0.5, which uses up the quote cap. *)
Lemma filterAll_never_exceeds_caps_witness :
  let zero := VolumeFilter.mkVolume 0 0 in
  let op := mkOperation Sell (frac 2 1) (frac 100 1) in
  let lp :=
    VolumeFilter.mkLimits (Some (frac 1 1)) (Some (frac 1 1))
      VolumeFilter.volumeFilterModeExact in
  Forall (λ op, 0 < price op) [op; op] ∧
  VolumeFilter.withinCaps lp zero
    (snd (VolumeFilter.volumeFilterFn VolumeFilter.floorToTick zero zero op lp)).
Proof.
  intros zero op lp.
  assert (Forall (λ op, 0 < price op) [op; op]) as Hprices.
  { repeat constructor. }
  split; [exact Hprices|].
  eapply (filterAll_never_exceeds_caps VolumeFilter.floorToTick zero zero
            [op; op] lp Hprices).
  vm_compute. apply list_elem_of_here.
Defined.

(** C3.  A cap of exactly zero on an axis drops the operation and leaves TBB
    as it was: on the base axis at every price, on the quote axis at every
    positive price (the committed volume of the axis being a volume, hence
    not negative). *)
Theorem zero_cap_drops_operation :
  ∀ (roundDownToTick : Qc → Qc) (otb tbb : VolumeFilter.VolumeAccumulator)
    (op : Operation) (lp : VolumeFilter.limitParameters),
    (VolumeFilter.sellBaseAssetCapInBaseUnits lp = Some 0 ∧
     0 <= VolumeFilter.baseVolume otb + VolumeFilter.baseVolume tbb) ∨
    (VolumeFilter.sellBaseAssetCapInQuoteUnits lp = Some 0 ∧
     0 <= VolumeFilter.quoteVolume otb + VolumeFilter.quoteVolume tbb ∧
     0 < price op) →
    VolumeFilter.volumeFilterFn roundDownToTick otb tbb op lp = (None, tbb).
Proof.
  intros rd otb tbb op lp Hzero. unfold VolumeFilter.volumeFilterFn.
  case_decide as Hdrop; [done|]. exfalso. apply Hdrop. clear Hdrop.
  destruct Hzero as [[Hcap Hused] | (Hcap & Hused & Hprice)].
  - eapply Qcle_trans; [by apply admissible_le_base|].
    revert Hused.
    generalize (VolumeFilter.baseVolume otb + VolumeFilter.baseVolume tbb).
    intros u Hu. qc_lra.
  - eapply Qcle_trans; [by apply admissible_le_quote|].
    apply Qc_div_nonpos; [done|].
    revert Hused.
    generalize (VolumeFilter.quoteVolume otb + VolumeFilter.quoteVolume tbb).
    intros u Hu. qc_lra.
Qed.

(** The two zero-cap cases of the test: a sell of 100.0 at 2.0 is dropped
    and TBB stays (0, 0). *)
Lemma zero_cap_drops_operation_witness :
  let zero := VolumeFilter.mkVolume 0 0 in
  let op := mkOperation Sell (frac 2 1) (frac 100 1) in
  let exact := VolumeFilter.volumeFilterModeExact in
  VolumeFilter.volumeFilterFn VolumeFilter.floorToTick zero zero op
    (VolumeFilter.mkLimits (Some 0) None exact) = (None, zero) ∧
  VolumeFilter.volumeFilterFn VolumeFilter.floorToTick zero zero op
    (VolumeFilter.mkLimits None (Some 0) exact) = (None, zero).
Proof.
  intros zero op exact. split.
  - apply zero_cap_drops_operation. left. split; [reflexivity | by vm_compute].
  - apply zero_cap_drops_operation. right.
    split; [reflexivity | split; by vm_compute].
Defined.

(** The model agrees with the five cases of [TestVolumeFilterFn]: for a sell
    of 100.0 at price 2.0 against empty accumulators, it gives the expected
    amount (none when the operation is dropped) and the expected TBB. *)
Lemma volumeFilterFn_test_cases :
  let zero := VolumeFilter.mkVolume 0 0 in
  let op := mkOperation Sell (frac 2 1) (frac 100 1) in
  let run capBase capQuote :=
    VolumeFilter.volumeFilterFn VolumeFilter.floorToTick zero zero op
      (VolumeFilter.mkLimits capBase capQuote
         VolumeFilter.volumeFilterModeExact) in
  let outcome r :=
    (this <$> (amount <$> fst r),
     this (VolumeFilter.baseVolume (snd r)),
     this (VolumeFilter.quoteVolume (snd r))) in
  outcome (run (Some 0) None) = (None, 0, 0)%Q ∧
  outcome (run (Some 1) None) = (Some 1, 1, 2)%Q ∧
  outcome (run None (Some 0)) = (None, 0, 0)%Q ∧
  outcome (run None (Some 1)) = (Some (1 # 2), 1 # 2, 1)%Q ∧
  outcome (run (Some 1) (Some 1)) = (Some (1 # 2), 1 # 2, 1)%Q.
Proof. repeat split. Qed.

(** ** The swing level provider *)

(** C4.  With [maxAssetBase <= minBase], [GetLevels] answers an empty
    sequence and no error, whatever the fuel; the provider, the continuity
    map and the world come back as they were: no call of [GetTradeHistory]
    was made (the list of fetched cursors is the same). *)
Theorem GetLevels_nothing_to_expose :
  ∀ (Fetcher : Type)
    (GetTradeHistory :
       Fetcher → TradingPair → string → result (list Swing.Trade) * Fetcher)
    (quantize : Qc → Qc) (rangeOrder : gmap Qc Qc → list (Qc * Qc))
    (fuel : nat) (hack : bool) (p : Swing.swingLevelProvider)
    (m : gmap Qc Qc) (w : Swing.World Fetcher)
    (maxAssetBase maxAssetQuote : Qc),
    maxAssetBase <= Swing.minBase p →
    Swing.GetLevels GetTradeHistory quantize rangeOrder fuel hack p m w
      maxAssetBase maxAssetQuote
    = Some (Ok [], p, m, w).
Proof.
  intros F fetch quantize rangeOrder fuel hack p m w mb mq Hle.
  unfold Swing.GetLevels. by case_decide.
Qed.

(** A provider keeping 5 units back, asked with 5 units available, against a
    source whose first answer would be an error: no fuel is needed, nothing
    is fetched. *)
Lemma GetLevels_nothing_to_expose_witness :
  let p :=
    Swing.makeSwingLevelProvider (frac 2 100) 0 false (frac 1 1) 3
      (frac 2 1) (frac 10 1) (frac 5 1) (mkTradingPair "XLM" "USD") "c0" in
  let w := Swing.mkWorld [Err "unreachable"] [] in
  Swing.GetLevels Swing.scriptedFetcher Swing.roundToPrecision Swing.keyOrder
    0 false p ∅ w (frac 5 1) 0
  = Some (Ok [], p, ∅, w).
Proof.
  intros p w.
  apply (GetLevels_nothing_to_expose _ Swing.scriptedFetcher
           Swing.roundToPrecision Swing.keyOrder 0 false p ∅ w (frac 5 1) 0).
  by vm_compute.
Defined.

(** Without an exact match and over a map of one entry, the scan takes that
    entry, whatever the side of the trade price it lies on and whatever the
    order of the [range]. *)
Lemma getLastPriceFromMap_single_entry
    (rangeOrder : gmap Qc Qc → list (Qc * Qc)) (k v tradePrice : Qc)
    (lastTradeIsBuy : bool) :
  rangeOrder {[k := v]} ≡ₚ map_to_list ({[k := v]} : gmap Qc Qc) →
  k ≠ tradePrice →
  Swing.getLastPriceFromMap rangeOrder {[k := v]} tradePrice lastTradeIsBuy
  = v.
Proof.
  intros Hperm Hne. unfold Swing.getLastPriceFromMap.
  rewrite lookup_singleton_ne by done.
  rewrite map_to_list_singleton in Hperm.
  apply Permutation_singleton_r in Hperm. rewrite Hperm.
  unfold Swing.scanEntries. by simpl.
Qed.

(** C7.  The map holds the single entry 2.02 -> 2.02 (a sell-side level
    emitted from the swing price 2.0 at a spread of 0.02) and a sell-side
    trade is observed at 1.5, which is no key; no key is strictly below 1.5,
    so the sentinel -1 is due, but the scan resolves to 2.02: its first
    iteration takes whatever entry comes first. *)
Theorem getLastPriceFromMap_takes_entry_on_wrong_side :
  let m : gmap Qc Qc := {[frac 202 100 := frac 202 100]} in
  m !! frac 15 10 = None ∧
  (∀ k v, m !! k = Some v → ¬ k < frac 15 10) ∧
  Swing.getLastPriceFromMap Swing.keyOrder m (frac 15 10) false
    = frac 202 100 ∧
  frac 202 100 ≠ Swing.unknownPrice.
Proof.
  intros m. split; [|split; [|split]].
  - apply lookup_singleton_ne. by vm_compute.
  - intros k v Hkv.
    apply lookup_singleton_Some in Hkv as [<- _]. by vm_compute.
  - apply getLastPriceFromMap_single_entry; [done | by vm_compute].
  - by vm_compute.
Qed.

(** The result of the scan depends on the order of the [range]: with the
    entries 3 -> 30 and 7 -> 70 and a sell-side trade at 5, it is 70 when 7
    comes first and 30 when 3 comes first. *)
Lemma scanEntries_depends_on_order :
  snd (Swing.scanEntries (frac 5 1) false
         [(frac 7 1, frac 70 1); (frac 3 1, frac 30 1)]) = frac 70 1 ∧
  snd (Swing.scanEntries (frac 5 1) false
         [(frac 3 1, frac 30 1); (frac 7 1, frac 70 1)]) = frac 30 1.
Proof. split; apply Qc_is_canon; by vm_compute. Qed.

Section PollingFacts.

Context {Fetcher : Type}.
Variable GetTradeHistory :
  Fetcher → TradingPair → string → result (list Swing.Trade) * Fetcher.

(** After [k] pages with trades, the loop goes on from the state reached. *)
Lemma pollLoop_afterPages (k n : nat) (hack : bool) (pair : TradingPair)
    (w wk : Swing.World Fetcher) (lp lpk : Qc) (lc lck : string)
    (lb lbk : bool) :
  Swing.afterPages GetTradeHistory k hack pair w lp lc lb
    = Some (wk, lpk, lck, lbk) →
  Swing.pollLoop GetTradeHistory (k + n) hack pair w lp lc lb
    = Swing.pollLoop GetTradeHistory n hack pair wk lpk lck lbk.
Proof.
  revert w lp lc lb.
  induction k as [|k IH]; intros w lp lc lb; simpl.
  - by intros [= -> -> -> ->].
  - destruct (Swing.pollOnce GetTradeHistory hack pair w lp lc lb)
      as [[r | lp' lc' lb'] w']; [discriminate|].
    apply IH.
Qed.

(** A failing page ends the loop with an error. *)
Lemma pollLoop_fetch_error (n : nat) (hack : bool) (pair : TradingPair)
    (w : Swing.World Fetcher) (lp : Qc) (lc : string) (lb : bool)
    (e : string) (f : Fetcher) :
  GetTradeHistory (Swing.fetcher w) pair lc = (Err e, f) →
  Swing.pollLoop GetTradeHistory (S n) hack pair w lp lc lb
    = Some (Err ("error in tradeFetcher.GetTradeHistory: " +:+ e),
            Swing.mkWorld f (lc :: Swing.fetched w)).
Proof.
  intros Hfetch. simpl.
  unfold Swing.pollOnce, Swing.callGetTradeHistory. by rewrite Hfetch.
Qed.

End PollingFacts.

(** C5.  If the page fetched after [k] pages with trades fails ([k = 0]: the
    first page), then with fuel for more than [k] pages [GetLevels] returns
    an error and no levels, and the provider and the continuity map are those
    of before the call. *)
Theorem GetLevels_fetch_failure_leaves_state :
  ∀ (Fetcher : Type)
    (GetTradeHistory :
       Fetcher → TradingPair → string → result (list Swing.Trade) * Fetcher)
    (quantize : Qc → Qc) (rangeOrder : gmap Qc Qc → list (Qc * Qc))
    (k fuel : nat) (hack : bool) (p : Swing.swingLevelProvider)
    (m : gmap Qc Qc) (w wk : Swing.World Fetcher)
    (maxAssetBase maxAssetQuote lastPrice : Qc) (lastCursor e : string)
    (lastIsBuy : bool) (f : Fetcher),
    Swing.minBase p < maxAssetBase →
    Swing.afterPages GetTradeHistory k hack (Swing.tradingPair p) w
      (Swing.lastTradePrice p) (Swing.lastTradeCursor p) false
      = Some (wk, lastPrice, lastCursor, lastIsBuy) →
    GetTradeHistory (Swing.fetcher wk) (Swing.tradingPair p) lastCursor
      = (Err e, f) →
    (k < fuel)%nat →
    Swing.GetLevels GetTradeHistory quantize rangeOrder fuel hack p m w
      maxAssetBase maxAssetQuote
    = Some (Err ("error in fetchLatestTradePrice: "
                 +:+ "error in tradeFetcher.GetTradeHistory: " +:+ e),
            p, m, Swing.mkWorld f (lastCursor :: Swing.fetched wk)).
Proof.
  intros F fetch quantize rangeOrder k fuel hack p m w wk mb mq lp lc e lb f
    Hbase Hpages Hfail Hfuel.
  unfold Swing.GetLevels, Swing.fetchLatestTradePrice.
  case_decide as Hle; [by apply Qclt_not_le in Hbase|].
  replace fuel with (k + S (fuel - S k))%nat by lia.
  rewrite (pollLoop_afterPages fetch k _ hack _ w wk _ lp _ lc _ lb Hpages).
  by rewrite (pollLoop_fetch_error fetch _ hack _ wk lp lc lb e f Hfail).
Qed.

(** One page with a buy at 2.5 (transaction t1), then a failing page: the
    call fails, and the provider still has its first-run flag, its cursor c0
    and its price 2.0; the two fetches were made at c0 and at t1. *)
Lemma GetLevels_fetch_failure_leaves_state_witness :
  let pair := mkTradingPair "XLM" "USD" in
  let p :=
    Swing.makeSwingLevelProvider (frac 2 100) 0 false (frac 1 1) 3
      (frac 2 1) (frac 10 1) 0 pair "c0" in
  let trade := Swing.mkTrade "t1" "1700000000" Swing.OrderActionBuy
                 (frac 25 10) in
  let w := Swing.mkWorld [Ok [trade]; Err "timeout"] [] in
  Swing.GetLevels Swing.scriptedFetcher Swing.roundToPrecision Swing.keyOrder
    2 false p ∅ w (frac 100 1) 0
  = Some (Err ("error in fetchLatestTradePrice: "
               +:+ "error in tradeFetcher.GetTradeHistory: " +:+ "timeout"),
          p, ∅, Swing.mkWorld [] ["t1"; "c0"]).
Proof.
  intros pair p trade w.
  apply (GetLevels_fetch_failure_leaves_state _ Swing.scriptedFetcher
           Swing.roundToPrecision Swing.keyOrder 1 2 false p ∅ w
           (Swing.mkWorld [Err "timeout"] ["c0"]) (frac 100 1) 0
           (frac 25 10) "t1" "timeout" true []).
  - by vm_compute.
  - reflexivity.
  - reflexivity.
  - lia.
Defined.

(** Every error of [GetLevels], a failed fetch or a timestamp that is no
    integer, leaves the provider and the continuity map as they were. *)
Lemma GetLevels_error_leaves_state {Fetcher : Type}
    (GetTradeHistory :
       Fetcher → TradingPair → string → result (list Swing.Trade) * Fetcher)
    (quantize : Qc → Qc) (rangeOrder : gmap Qc Qc → list (Qc * Qc))
    (fuel : nat) (hack : bool) (p p' : Swing.swingLevelProvider)
    (m m' : gmap Qc Qc) (w w' : Swing.World Fetcher)
    (maxAssetBase maxAssetQuote : Qc) (e : string) :
  Swing.GetLevels GetTradeHistory quantize rangeOrder fuel hack p m w
    maxAssetBase maxAssetQuote = Some (Err e, p', m', w') →
  p' = p ∧ m' = m.
Proof.
  unfold Swing.GetLevels. case_decide; [discriminate|].
  destruct (Swing.fetchLatestTradePrice GetTradeHistory fuel hack p w)
    as [[[[[lp lc] lb] | e'] w'']|]; [discriminate | | discriminate].
  by intros [= _ <- <- _].
Qed.

Section LevelFacts.

Import Swing.

Variable quantize : Qc → Qc.
Variable p : swingLevelProvider.
Variable maxAssetBase : Qc.
Variable m : gmap Qc Qc.

Lemma swingAt_S (j : nat) :
  swingAt p (S j) = swingAt p j * (1 + spread p / frac 2 1).
Proof. unfold swingAt. simpl. ring. Qed.

Lemma exposedAt_S (j : nat) :
  exposedAt p (S j) = exposedAt p j + usageAt p (S j).
Proof. unfold exposedAt. by rewrite seq_S, fmap_app, foldl_app. Qed.

Lemma mapAt_S (j : nat) :
  mapAt quantize p m (S j)
  = <[mapKeyAt quantize p (S j) := mapValueAt p (S j)]>
      (mapAt quantize p m j).
Proof. unfold mapAt. by rewrite seq_S, foldl_snoc. Qed.

Lemma stateAt_0 : stateAt quantize p m 0 = mkLoop (startPrice p) 0 [] m.
Proof.
  unfold stateAt, swingAt, exposedAt, mapAt. simpl. f_equal. ring.
Qed.

(** One iteration from the state after [j] iterations. *)
Lemma levelStep_stateAt (j : nat) :
  levelStep quantize p maxAssetBase (stateAt quantize p m j)
  = if exitsAt p maxAssetBase (S j) then None
    else Some (stateAt quantize p m (S j)).
Proof.
  unfold levelStep, stateAt, exitsAt.
  cbn [newPrice baseExposed levels price2LastPrice pred].
  rewrite <- swingAt_S.
  change (swingAt p (S j) * (1 + offsetSpread p / frac 2 1))
    with (priceToUseAt p (S j)).
  change (if useMaxQuoteInTargetAmountCalc p
          then amountBase p / priceToUseAt p (S j) else amountBase p)
    with (usageAt p (S j)).
  case_decide as Hbase.
  { by rewrite bool_decide_eq_true_2. }
  rewrite (bool_decide_eq_false_2 _ Hbase). simpl orb.
  destruct (useMaxQuoteInTargetAmountCalc p) eqn:Hside; simpl andb; simpl negb.
  - destruct (bool_decide (1 / priceToUseAt p (S j) < priceLimit p));
      [done|]. cbv iota.
    rewrite exposedAt_S, mapAt_S, seq_S, fmap_app.
    unfold mapKeyAt, mapValueAt, levelAt. by rewrite Hside.
  - destruct (bool_decide (priceLimit p < priceToUseAt p (S j)));
      [done|]. cbv iota.
    rewrite exposedAt_S, mapAt_S, seq_S, fmap_app.
    unfold mapKeyAt, mapValueAt, levelAt. by rewrite Hside.
Qed.

(** The loop stops after some [n'] iterations, none of which met a [break],
    and short of [n] only at a [break]. *)
Lemma levelLoop_stateAt (n j : nat) :
  ∃ n' : nat,
    (n' ≤ n)%nat ∧
    levelLoop quantize n p maxAssetBase (stateAt quantize p m j)
      = stateAt quantize p m (j + n') ∧
    (∀ i : nat, (j < i ≤ j + n')%nat → exitsAt p maxAssetBase i = false) ∧
    ((n' < n)%nat → exitsAt p maxAssetBase (S (j + n')) = true).
Proof.
  revert j. induction n as [|n IH]; intros j.
  - exists 0%nat. rewrite Nat.add_0_r. simpl.
    split; [lia|]. split; [done|]. split; intros; lia.
  - simpl. rewrite levelStep_stateAt.
    destruct (exitsAt p maxAssetBase (S j)) eqn:Hexit.
    + exists 0%nat. rewrite Nat.add_0_r.
      split; [lia|]. split; [done|]. split; [intros; lia | done].
    + destruct (IH (S j)) as (n' & Hle & Hloop & Hran & Hstop).
      exists (S n'). replace (j + S n')%nat with (S j + n')%nat by lia.
      split; [lia|]. split; [done|]. split.
      * intros i Hi. destruct (decide (i = S j)) as [->|]; [done|].
        apply Hran. lia.
      * intros Hlt. apply Hstop. lia.
Qed.

(** The entry of iteration [i] is the one found under its key, unless a
    later iteration wrote the same key. *)
Lemma mapAt_lookup (n i : nat) :
  (1 ≤ i ≤ n)%nat →
  (∀ j : nat, (i < j ≤ n)%nat →
     mapKeyAt quantize p j ≠ mapKeyAt quantize p i) →
  mapAt quantize p m n !! mapKeyAt quantize p i = Some (mapValueAt p i).
Proof.
  induction n as [|n IH]; intros Hi Hlater; [lia|].
  rewrite mapAt_S.
  destruct (decide (i = S n)) as [->|Hne].
  - by rewrite lookup_insert_eq.
  - rewrite lookup_insert_ne by (apply Hlater; lia).
    apply IH; [lia|]. intros j Hj. apply Hlater. lia.
Qed.

End LevelFacts.

Section GetLevelsFacts.

Import Swing.

Context {Fetcher : Type}.
Variable GetTradeHistory :
  Fetcher → TradingPair → string → result (list Trade) * Fetcher.
Variable quantize : Qc → Qc.
Variable rangeOrder : gmap Qc Qc → list (Qc * Qc).

(** Reconciliation touches the cursor, the first-run flag and the swing
    price only. *)
Lemma reconcile_static (p : swingLevelProvider) (m : gmap Qc Qc)
    (lastPrice : Qc) (lastCursor : string) (lastIsBuy : bool) :
  let p' := reconcile quantize rangeOrder p m lastPrice lastCursor lastIsBuy in
  spread p' = spread p ∧ offsetSpread p' = offsetSpread p ∧
  amountBase p' = amountBase p ∧
  useMaxQuoteInTargetAmountCalc p' = useMaxQuoteInTargetAmountCalc p ∧
  maxLevels p' = maxLevels p ∧ priceLimit p' = priceLimit p ∧
  minBase p' = minBase p.
Proof.
  unfold reconcile.
  destruct (isFirstTradeHistoryRun p); [done|].
  by case_decide.
Qed.

(** Once the poll has succeeded, [GetLevels] returns the levels of the
    iterations before the first [break]. *)
Lemma GetLevels_after_poll (fuel : nat) (hack : bool)
    (p : swingLevelProvider) (m : gmap Qc Qc) (w w' : World Fetcher)
    (maxAssetBase maxAssetQuote lastPrice : Qc) (lastCursor : string)
    (lastIsBuy : bool) :
  minBase p < maxAssetBase →
  fetchLatestTradePrice GetTradeHistory fuel hack p w
    = Some (Ok (lastPrice, lastCursor, lastIsBuy), w') →
  let p' := reconcile quantize rangeOrder p m lastPrice lastCursor lastIsBuy in
  ∃ n : nat,
    (n ≤ Z.to_nat (maxLevels p'))%nat ∧
    GetLevels GetTradeHistory quantize rangeOrder fuel hack p m w
      maxAssetBase maxAssetQuote
    = Some (Ok (levelAt quantize p' <$> seq 1 n), p',
            mapAt quantize p' m n, w') ∧
    (∀ i : nat, (1 ≤ i ≤ n)%nat → exitsAt p' maxAssetBase i = false) ∧
    ((n < Z.to_nat (maxLevels p'))%nat →
     exitsAt p' maxAssetBase (S n) = true).
Proof.
  intros Hbase Hpoll p'.
  destruct (levelLoop_stateAt quantize p' maxAssetBase m
              (Z.to_nat (maxLevels p')) 0)
    as (n & Hle & Hloop & Hran & Hstop).
  exists n. split; [done|]. split; [|split].
  - unfold GetLevels. case_decide as Hle'; [by apply Qclt_not_le in Hbase|].
    rewrite Hpoll. cbv zeta. fold p'. fold (startPrice p').
    by rewrite <- (stateAt_0 quantize p' m), Hloop.
  - intros i Hi. apply Hran. lia.
  - done.
Qed.

(** What a successful [GetLevels] returns. *)
Lemma GetLevels_Ok_inv (fuel : nat) (hack : bool)
    (p p' : swingLevelProvider) (m m' : gmap Qc Qc) (w w' : World Fetcher)
    (maxAssetBase maxAssetQuote : Qc) (lvls : list Level) :
  GetLevels GetTradeHistory quantize rangeOrder fuel hack p m w
    maxAssetBase maxAssetQuote = Some (Ok lvls, p', m', w') →
  ∃ n : nat,
    lvls = levelAt quantize p' <$> seq 1 n ∧ m' = mapAt quantize p' m n.
Proof.
  intros Hrun.
  destruct (decide (maxAssetBase <= minBase p)) as [Hle|Hgt].
  - unfold GetLevels in Hrun. rewrite decide_True in Hrun by done.
    injection Hrun as <- <- <- <-. by exists 0%nat.
  - pose proof (Qcnot_le_lt _ _ Hgt) as Hlt.
    destruct (fetchLatestTradePrice GetTradeHistory fuel hack p w)
      as [[[[[lp lc] lb] | e] w'']|] eqn:Hpoll.
    + destruct (GetLevels_after_poll fuel hack p m w w'' maxAssetBase
                  maxAssetQuote lp lc lb Hlt Hpoll) as (n & _ & Heq & _).
      rewrite Heq in Hrun. injection Hrun as <- <- <- <-. by exists n.
    + unfold GetLevels in Hrun.
      rewrite decide_False, Hpoll in Hrun by done. discriminate.
    + unfold GetLevels in Hrun.
      rewrite decide_False, Hpoll in Hrun by done. discriminate.
Qed.

End GetLevelsFacts.

(** C8, as the code has it.  For the level emitted in iteration [i] of a
    call of [GetLevels], a later reconciliation that observes the key
    written in that iteration (on the sell side the level's own quantized
    price) finds it by exact match and resolves to the value written with
    it: the swing price of iteration [i] after its compounding,
    [lastTradePrice * (1 + spread/2)^i] on the sell side; provided no later
    iteration of the call wrote the same key. *)
Theorem emitted_price_reconciles_to_compounded_swing :
  ∀ (Fetcher : Type)
    (GetTradeHistory :
       Fetcher → TradingPair → string → result (list Swing.Trade) * Fetcher)
    (quantize : Qc → Qc) (rangeOrder : gmap Qc Qc → list (Qc * Qc))
    (fuel : nat) (hack : bool) (p p' : Swing.swingLevelProvider)
    (m m' : gmap Qc Qc) (w w' : Swing.World Fetcher)
    (maxAssetBase maxAssetQuote : Qc) (lvls : list Swing.Level)
    (i : nat) (lastTradeIsBuy : bool),
    Swing.GetLevels GetTradeHistory quantize rangeOrder fuel hack p m w
      maxAssetBase maxAssetQuote = Some (Ok lvls, p', m', w') →
    (1 ≤ i ≤ length lvls)%nat →
    (∀ j : nat, (i < j ≤ length lvls)%nat →
       Swing.mapKeyAt quantize p' j ≠ Swing.mapKeyAt quantize p' i) →
    lvls !! (i - 1)%nat
      = Some (Swing.mkLevel (quantize (Swing.priceToUseAt p' i))
                (quantize (Swing.amountBase p'))) ∧
    Swing.getLastPriceFromMap rangeOrder m' (Swing.mapKeyAt quantize p' i)
      lastTradeIsBuy = Swing.mapValueAt p' i ∧
    (Swing.useMaxQuoteInTargetAmountCalc p' = false →
     Swing.mapKeyAt quantize p' i = quantize (Swing.priceToUseAt p' i) ∧
     Swing.mapValueAt p' i
       = Swing.lastTradePrice p'
         * (1 + Swing.spread p' / frac 2 1) ^ i).
Proof.
  intros F fetch quantize rangeOrder fuel hack p p' m m' w w' mb mq lvls i
    isBuy Hrun Hi Hlater.
  apply GetLevels_Ok_inv in Hrun as (n & -> & ->).
  rewrite length_fmap, length_seq in Hi, Hlater.
  split; [|split].
  - rewrite list_lookup_fmap.
    assert (seq 1 n !! (i - 1)%nat = Some i) as ->
      by (apply lookup_seq; lia).
    done.
  - unfold Swing.getLastPriceFromMap.
    by rewrite (mapAt_lookup quantize p' m n i Hi Hlater).
  - intros Hsell.
    unfold Swing.mapKeyAt, Swing.mapValueAt, Swing.swingAt, Swing.startPrice.
    by rewrite Hsell.
Qed.

(** A sell-side provider at swing price 2.0 with spread 0.02 emits its one
    level at 2.02; observed later, 2.02 reconciles to 2.02. *)
Lemma emitted_price_reconciles_to_compounded_swing_witness :
  let p :=
    Swing.makeSwingLevelProvider (frac 2 100) 0 false (frac 1 1) 1
      (frac 2 1) (frac 10 1) 0 (mkTradingPair "XLM" "USD") "c0" in
  let run :=
    Swing.GetLevels Swing.scriptedFetcher Swing.roundToPrecision
      Swing.keyOrder 1 false p ∅ (Swing.mkWorld [] []) (frac 100 1) 0 in
  ∃ lvls p' m' w',
    run = Some (Ok lvls, p', m', w') ∧
    length lvls = 1%nat ∧
    Swing.getLastPriceFromMap Swing.keyOrder m'
      (Swing.mapKeyAt Swing.roundToPrecision p' 1) false
    = frac 202 100.
Proof.
  intros p run.
  destruct run as [[[[[lvls|e] p'] m'] w']|] eqn:Hrun;
    [|by vm_compute in Hrun..].
  exists lvls, p', m', w'.
  assert (length lvls = 1%nat) as Hlen.
  { vm_compute in Hrun. by injection Hrun as <- _ _ _. }
  split; [done|]. split; [done|].
  destruct (emitted_price_reconciles_to_compounded_swing _
              Swing.scriptedFetcher Swing.roundToPrecision Swing.keyOrder
              1 false p p' ∅ m' (Swing.mkWorld [] []) w' (frac 100 1) 0
              lvls 1 false Hrun) as (_ & -> & _).
  - lia.
  - intros j Hj. lia.
  - vm_compute in Hrun. injection Hrun as _ <- _ _.
    apply Qc_is_canon. by vm_compute.
Defined.

(** C8, as stated, fails.  The same provider: the level is emitted at 2.02
    by the iteration that started from the swing price 2.0, and an exact
    match on 2.02 resolves to 2.02, not to 2.0. *)
Lemma reconciled_price_is_not_pre_compounding :
  let p :=
    Swing.makeSwingLevelProvider (frac 2 100) 0 false (frac 1 1) 1
      (frac 2 1) (frac 10 1) 0 (mkTradingPair "XLM" "USD") "c0" in
  match
    Swing.GetLevels Swing.scriptedFetcher Swing.roundToPrecision
      Swing.keyOrder 1 false p ∅ (Swing.mkWorld [] []) (frac 100 1) 0
  with
  | Some (Ok [level], p', m', _) =>
      Swing.Price level = frac 202 100 ∧
      Swing.lastTradePrice p' = frac 2 1 ∧
      m' !! Swing.Price level = Some (frac 202 100) ∧
      Swing.getLastPriceFromMap Swing.keyOrder m' (Swing.Price level) false
        ≠ Swing.lastTradePrice p'
  | _ => False
  end.
Proof.
  vm_compute.
  split; [by apply Qc_is_canon|]. split; [by apply Qc_is_canon|].
  split; [f_equal; by apply Qc_is_canon|].
  intros H. by apply (f_equal this) in H.
Qed.

Section SellSideFacts.

Import Swing.

Variable p : swingLevelProvider.
Hypothesis sellSide : useMaxQuoteInTargetAmountCalc p = false.





End SellSideFacts.





(** * Further properties of the code *)

(** ** The reconciliation scan of [getLastPriceFromMap] *)

(** Past its first iteration, the scan replaces the entry it holds by an
    entry on the right side that is strictly nearer, and by no other. *)
Lemma scanStep_settled (tradePrice : Qc) (lastTradeIsBuy : bool)
    (c lp k v : Qc) :
  c ≠ Swing.unknownPrice →
  Swing.scanStep tradePrice lastTradeIsBuy (c, lp) (k, v)
  = if (if lastTradeIsBuy
        then bool_decide (tradePrice < k) && bool_decide (k < c)
        else bool_decide (k < tradePrice) && bool_decide (c < k))
    then (k, v) else (c, lp).
Proof.
  intros Hc. unfold Swing.scanStep.
  rewrite (bool_decide_eq_false_2 (c = Swing.unknownPrice)) by done.
  destruct lastTradeIsBuy; simpl; by rewrite ?orb_false_r.
Qed.

(** Once the scan holds an entry on the right side, it ends on the nearest
    such entry of those it visits. *)
Lemma scan_keeps_nearest (tradePrice : Qc) (lastTradeIsBuy : bool)
    (entries : list (Qc * Qc)) (acc r : Qc * Qc) :
  acc.1 ≠ Swing.unknownPrice →
  SwingNotions.onSide tradePrice lastTradeIsBuy acc.1 →
  (∀ e, e ∈ entries → e.1 ≠ Swing.unknownPrice) →
  foldl (Swing.scanStep tradePrice lastTradeIsBuy) acc entries = r →
  (r = acc ∨ r ∈ entries) ∧
  SwingNotions.onSide tradePrice lastTradeIsBuy r.1 ∧
  SwingNotions.nearer lastTradeIsBuy r.1 acc.1 ∧
  (∀ e, e ∈ entries → SwingNotions.onSide tradePrice lastTradeIsBuy e.1 →
     SwingNotions.nearer lastTradeIsBuy r.1 e.1).
Proof.
  unfold SwingNotions.onSide, SwingNotions.nearer.
  revert acc.
  induction entries as [|[k v] entries IH]; intros [c lp] Hc Hside Hkeys Hr.
  - simpl in Hr. subst r. split; [by left|]. split; [done|]. split.
    + destruct lastTradeIsBuy; apply Qcle_refl.
    + intros e He. by apply elem_of_nil in He.
  - simpl in Hc, Hside. cbn [foldl] in Hr.
    assert (k ≠ Swing.unknownPrice) as Hk.
    { apply (Hkeys (k, v)). left. }
    assert (∀ e, e ∈ entries → e.1 ≠ Swing.unknownPrice) as Hkeys'.
    { intros e He. apply Hkeys. by right. }
    rewrite scanStep_settled in Hr by done.
    destruct lastTradeIsBuy.
    + destruct (decide (tradePrice < k)) as [Hks|Hks];
        [destruct (decide (k < c)) as [Hkc|Hkc]|].
      * rewrite !bool_decide_eq_true_2 in Hr by done. simpl in Hr.
        destruct (IH (k, v) Hk Hks Hkeys' Hr) as (Hin & Hs & Hn & Hall).
        split; [|split; [done|split]].
        -- right. destruct Hin as [-> | Hin]; [left | by right].
        -- simpl in Hn |- *. eapply Qcle_trans; [exact Hn|].
           by apply Qclt_le_weak.
        -- intros e He Hes. apply elem_of_cons in He as [-> | He]; [done|].
           by apply Hall.
      * rewrite (bool_decide_eq_false_2 (k < c)) in Hr by done.
        rewrite andb_false_r in Hr.
        destruct (IH (c, lp) Hc Hside Hkeys' Hr) as (Hin & Hs & Hn & Hall).
        split; [|split; [done|split; [done|]]].
        -- destruct Hin as [-> | Hin]; [by left | right; by right].
        -- intros e He Hes. apply elem_of_cons in He as [-> | He];
             [|by apply Hall].
           simpl in Hn |- *. eapply Qcle_trans; [exact Hn|].
           by apply Qcnot_lt_le.
      * rewrite (bool_decide_eq_false_2 (tradePrice < k)) in Hr by done.
        simpl in Hr.
        destruct (IH (c, lp) Hc Hside Hkeys' Hr) as (Hin & Hs & Hn & Hall).
        split; [|split; [done|split; [done|]]].
        -- destruct Hin as [-> | Hin]; [by left | right; by right].
        -- intros e He Hes. apply elem_of_cons in He as [-> | He];
             [done | by apply Hall].
    + destruct (decide (k < tradePrice)) as [Hks|Hks];
        [destruct (decide (c < k)) as [Hkc|Hkc]|].
      * rewrite !bool_decide_eq_true_2 in Hr by done. simpl in Hr.
        destruct (IH (k, v) Hk Hks Hkeys' Hr) as (Hin & Hs & Hn & Hall).
        split; [|split; [done|split]].
        -- right. destruct Hin as [-> | Hin]; [left | by right].
        -- simpl in Hn |- *. eapply Qcle_trans; [|exact Hn].
           by apply Qclt_le_weak.
        -- intros e He Hes. apply elem_of_cons in He as [-> | He]; [done|].
           by apply Hall.
      * rewrite (bool_decide_eq_false_2 (c < k)) in Hr by done.
        rewrite andb_false_r in Hr.
        destruct (IH (c, lp) Hc Hside Hkeys' Hr) as (Hin & Hs & Hn & Hall).
        split; [|split; [done|split; [done|]]].
        -- destruct Hin as [-> | Hin]; [by left | right; by right].
        -- intros e He Hes. apply elem_of_cons in He as [-> | He];
             [|by apply Hall].
           simpl in Hn |- *. eapply Qcle_trans; [|exact Hn].
           by apply Qcnot_lt_le.
      * rewrite (bool_decide_eq_false_2 (k < tradePrice)) in Hr by done.
        simpl in Hr.
        destruct (IH (c, lp) Hc Hside Hkeys' Hr) as (Hin & Hs & Hn & Hall).
        split; [|split; [done|split; [done|]]].
        -- destruct Hin as [-> | Hin]; [by left | right; by right].
        -- intros e He Hes. apply elem_of_cons in He as [-> | He];
             [done | by apply Hall].
Qed.

(** Whatever it visits first, the scan ends on an entry it visited, or on
    what it started from. *)
Lemma scan_ends_on_entry (tradePrice : Qc) (lastTradeIsBuy : bool)
    (entries : list (Qc * Qc)) (acc : Qc * Qc) :
  let r := foldl (Swing.scanStep tradePrice lastTradeIsBuy) acc entries in
  r = acc ∨ r ∈ entries.
Proof.
  revert acc. induction entries as [|e entries IH]; intros acc; simpl.
  - by left.
  - destruct (IH (Swing.scanStep tradePrice lastTradeIsBuy acc e))
      as [-> | Hin]; [|right; by right].
    unfold Swing.scanStep. destruct acc as [c lp], e as [k v].
    destruct (_ || _); [right; left | by left].
Qed.

(** The first iteration of the scan takes the first entry visited. *)
Lemma scanEntries_cons (tradePrice : Qc) (lastTradeIsBuy : bool)
    (e : Qc * Qc) (rest : list (Qc * Qc)) :
  Swing.scanEntries tradePrice lastTradeIsBuy (e :: rest)
  = foldl (Swing.scanStep tradePrice lastTradeIsBuy) e rest.
Proof.
  unfold Swing.scanEntries. cbn [foldl]. f_equal.
  unfold Swing.scanStep. destruct e as [k v].
  by rewrite bool_decide_eq_true_2.
Qed.

(** X1.  Without an exact match, when the first entry the [range] visits
    lies on the side the trade direction asks for (and -1 is no key), the
    scan resolves to the value under the key nearest to the trade price on
    that side, over the whole map. *)
Theorem getLastPriceFromMap_nearest_after_good_start :
  ∀ (rangeOrder : gmap Qc Qc → list (Qc * Qc)) (m : gmap Qc Qc)
    (tradePrice : Qc) (lastTradeIsBuy : bool) (k0 v0 : Qc)
    (rest : list (Qc * Qc)),
    rangeOrder m ≡ₚ map_to_list m →
    m !! tradePrice = None →
    (∀ k, is_Some (m !! k) → k ≠ Swing.unknownPrice) →
    rangeOrder m = (k0, v0) :: rest →
    SwingNotions.onSide tradePrice lastTradeIsBuy k0 →
    ∃ k : Qc,
      m !! k
        = Some (Swing.getLastPriceFromMap rangeOrder m tradePrice
                  lastTradeIsBuy) ∧
      SwingNotions.onSide tradePrice lastTradeIsBuy k ∧
      ∀ k' : Qc, is_Some (m !! k') →
        SwingNotions.onSide tradePrice lastTradeIsBuy k' →
        SwingNotions.nearer lastTradeIsBuy k k'.
Proof.
  intros rangeOrder m tp isBuy k0 v0 rest Hperm Hnone Hkeys Horder Hside.
  assert (∀ e, e ∈ rangeOrder m ↔ m !! e.1 = Some e.2) as Hin.
  { intros [k v]. rewrite Hperm. apply elem_of_map_to_list. }
  unfold Swing.getLastPriceFromMap. rewrite Hnone, Horder, scanEntries_cons.
  destruct (scan_keeps_nearest tp isBuy rest (k0, v0)
              (foldl (Swing.scanStep tp isBuy) (k0, v0) rest))
    as (Hr & Hrs & Hrn & Hall); [| done | | done |].
  - apply Hkeys. exists v0. apply (Hin (k0, v0)). rewrite Horder. left.
  - intros e He. apply Hkeys. exists e.2. apply Hin. rewrite Horder.
    by right.
  - set (r := foldl (Swing.scanStep tp isBuy) (k0, v0) rest) in *.
    exists r.1. split; [|split; [done|]].
    + apply Hin. rewrite Horder.
      destruct Hr as [-> | Hr]; [left | by right].
    + intros k' [v' Hk'] Hside'.
      apply (Hin (k', v')) in Hk'. rewrite Horder in Hk'.
      apply elem_of_cons in Hk' as [[= -> ->] | Hk']; [done|].
      by apply (Hall (k', v')).
Qed.

(** A buy-side trade at 1.5 against the one entry 2.02 -> 2.02 resolves to
    2.02, the nearest key above. *)
Lemma getLastPriceFromMap_nearest_after_good_start_witness :
  Swing.getLastPriceFromMap Swing.keyOrder {[frac 202 100 := frac 202 100]}
    (frac 15 10) true = frac 202 100.
Proof.
  destruct (getLastPriceFromMap_nearest_after_good_start Swing.keyOrder
              {[frac 202 100 := frac 202 100]} (frac 15 10) true
              (frac 202 100) (frac 202 100) [])
    as (k & Hk & _).
  - reflexivity.
  - apply lookup_singleton_ne. by vm_compute.
  - intros k [v Hk]. apply lookup_singleton_Some in Hk as [<- _].
    by vm_compute.
  - apply map_to_list_singleton.
  - by vm_compute.
  - by apply lookup_singleton_Some in Hk as [_ <-].
Defined.

(** X2.  Without an exact match the scan answers the sentinel -1 over the
    empty map, and over any other map the value of one of its entries. *)
Theorem getLastPriceFromMap_without_match :
  ∀ (rangeOrder : gmap Qc Qc → list (Qc * Qc)) (m : gmap Qc Qc)
    (tradePrice : Qc) (lastTradeIsBuy : bool),
    rangeOrder m ≡ₚ map_to_list m →
    m !! tradePrice = None →
    (m = ∅ ∧
     Swing.getLastPriceFromMap rangeOrder m tradePrice lastTradeIsBuy
       = Swing.unknownPrice) ∨
    (m ≠ ∅ ∧
     ∃ k : Qc,
       m !! k
         = Some (Swing.getLastPriceFromMap rangeOrder m tradePrice
                   lastTradeIsBuy)).
Proof.
  intros rangeOrder m tp isBuy Hperm Hnone.
  unfold Swing.getLastPriceFromMap. rewrite Hnone.
  destruct (rangeOrder m) as [|e rest] eqn:Horder.
  - left. split; [|done].
    apply Permutation_nil_l in Hperm. by apply map_to_list_empty_iff.
  - right. split.
    + intros ->. rewrite map_to_list_empty in Hperm.
      by apply Permutation_nil_r in Hperm.
    + rewrite scanEntries_cons.
      pose proof (scan_ends_on_entry tp isBuy rest e) as Hr. simpl in Hr.
      set (r := foldl (Swing.scanStep tp isBuy) e rest) in *.
      exists r.1. apply elem_of_map_to_list. rewrite <- Hperm.
      destruct r as [k v]. simpl.
      destruct Hr as [-> | Hr]; [left | by right].
Qed.

(** Over the empty map a trade at 1.5 resolves to -1. *)
Lemma getLastPriceFromMap_without_match_witness :
  Swing.getLastPriceFromMap Swing.keyOrder ∅ (frac 15 10) false
  = Swing.unknownPrice.
Proof.
  destruct (getLastPriceFromMap_without_match Swing.keyOrder ∅ (frac 15 10)
              false) as [[_ H] | [H _]]; [reflexivity | done | done | done].
Defined.

(** ** Polling the trade history *)

(** X3.  Without the cursor hack, when the page fetched at the stored cursor
    ends with the trade [t] and the page fetched next, at [t]'s transaction
    identifier, is empty, the poll answers [t]'s price, [t]'s transaction
    identifier as the new cursor and whether [t] was a buy; the earlier
    trades of the page play no part, and exactly these two fetches are
    made. *)
Theorem fetchLatestTradePrice_last_trade_of_page :
  ∀ (Fetcher : Type)
    (GetTradeHistory :
       Fetcher → TradingPair → string → result (list Swing.Trade) * Fetcher)
    (fuel : nat) (p : Swing.swingLevelProvider) (w : Swing.World Fetcher)
    (trades : list Swing.Trade) (t : Swing.Trade) (f1 f2 : Fetcher),
    GetTradeHistory (Swing.fetcher w) (Swing.tradingPair p)
      (Swing.lastTradeCursor p) = (Ok (trades ++ [t]), f1) →
    GetTradeHistory f1 (Swing.tradingPair p) (Swing.TransactionID t)
      = (Ok [], f2) →
    (2 ≤ fuel)%nat →
    Swing.fetchLatestTradePrice GetTradeHistory fuel false p w
    = Some (Ok (Swing.TradePrice t, Swing.TransactionID t,
                match Swing.TradeOrderAction t with
                | Swing.OrderActionBuy => true
                | Swing.OrderActionSell => false
                end),
            Swing.mkWorld f2
              (Swing.TransactionID t :: Swing.lastTradeCursor p
               :: Swing.fetched w)).
Proof.
  intros F fetch fuel p w trades t f1 f2 Hpage Hempty Hfuel.
  destruct fuel as [|[|fuel]]; [lia | lia |].
  unfold Swing.fetchLatestTradePrice. cbn [Swing.pollLoop].
  unfold Swing.pollOnce at 1, Swing.callGetTradeHistory.
  rewrite Hpage, last_snoc. cbn [Swing.nextCursor].
  unfold Swing.pollOnce, Swing.callGetTradeHistory.
  cbn [Swing.fetcher Swing.fetched]. by rewrite Hempty.
Qed.

(** A page with a sell at 3.0 and then a buy at 2.5 (transaction t2): the
    poll answers 2.5, t2 and buy. *)
Lemma fetchLatestTradePrice_last_trade_of_page_witness :
  let p :=
    Swing.makeSwingLevelProvider (frac 2 100) 0 false (frac 1 1) 3
      (frac 2 1) (frac 10 1) 0 (mkTradingPair "XLM" "USD") "c0" in
  let t1 := Swing.mkTrade "t1" "1700000000" Swing.OrderActionSell
              (frac 3 1) in
  let t2 := Swing.mkTrade "t2" "1700000001" Swing.OrderActionBuy
              (frac 25 10) in
  Swing.fetchLatestTradePrice Swing.scriptedFetcher 2 false p
    (Swing.mkWorld [Ok [t1; t2]] [])
  = Some (Ok (frac 25 10, "t2", true), Swing.mkWorld [] ["t2"; "c0"]).
Proof.
  intros p t1 t2.
  apply (fetchLatestTradePrice_last_trade_of_page _ Swing.scriptedFetcher 2 p
           (Swing.mkWorld [Ok [t1; t2]] []) [t1] t2 [] []).
  - reflexivity.
  - reflexivity.
  - lia.
Defined.

(** ** What a call of [GetLevels] leaves behind *)

Section GetLevelsResults.

Import Swing.

Context {Fetcher : Type}.
Variable GetTradeHistory :
  Fetcher → TradingPair → string → result (list Trade) * Fetcher.
Variable quantize : Qc → Qc.
Variable rangeOrder : gmap Qc Qc → list (Qc * Qc).

Lemma reconcile_not_first (p : swingLevelProvider) (m : gmap Qc Qc)
    (lastPrice : Qc) (lastCursor : string) (lastIsBuy : bool) :
  isFirstTradeHistoryRun
    (reconcile quantize rangeOrder p m lastPrice lastCursor lastIsBuy)
  = false.
Proof.
  unfold reconcile.
  destruct (isFirstTradeHistoryRun p) eqn:Hfirst; [done|].
  by case_decide.
Qed.

(** A successful call returns the levels of the iterations [1..n] that ran,
    none of them a [break], and the map with their entries; the configured
    parameters of the provider are those of before. *)
Lemma GetLevels_Ok_shape (fuel : nat) (hack : bool)
    (p p' : swingLevelProvider) (m m' : gmap Qc Qc) (w w' : World Fetcher)
    (maxAssetBase maxAssetQuote : Qc) (lvls : list Level) :
  GetLevels GetTradeHistory quantize rangeOrder fuel hack p m w
    maxAssetBase maxAssetQuote = Some (Ok lvls, p', m', w') →
  ∃ n : nat,
    (n ≤ Z.to_nat (maxLevels p))%nat ∧
    lvls = levelAt quantize p' <$> seq 1 n ∧
    m' = mapAt quantize p' m n ∧
    (∀ i : nat, (1 ≤ i ≤ n)%nat → exitsAt p' maxAssetBase i = false) ∧
    (spread p' = spread p ∧ offsetSpread p' = offsetSpread p ∧
     amountBase p' = amountBase p ∧
     useMaxQuoteInTargetAmountCalc p' = useMaxQuoteInTargetAmountCalc p ∧
     maxLevels p' = maxLevels p ∧ priceLimit p' = priceLimit p ∧
     minBase p' = minBase p).
Proof.
  intros Hrun.
  destruct (decide (maxAssetBase <= minBase p)) as [Hle|Hgt].
  - unfold GetLevels in Hrun. rewrite decide_True in Hrun by done.
    injection Hrun as <- <- <- <-. exists 0%nat.
    split; [lia|]. split; [done|]. split; [done|].
    split; [intros; lia | done].
  - pose proof (Qcnot_le_lt _ _ Hgt) as Hlt.
    destruct (fetchLatestTradePrice GetTradeHistory fuel hack p w)
      as [[[[[lp lc] lb] | e] w'']|] eqn:Hpoll.
    + destruct (GetLevels_after_poll GetTradeHistory quantize rangeOrder
                  fuel hack p m w w'' maxAssetBase maxAssetQuote lp lc lb
                  Hlt Hpoll) as (n & Hle & Heq & Hran & _).
      rewrite Heq in Hrun. injection Hrun as <- <- <- <-.
      pose proof (reconcile_static quantize rangeOrder p m lp lc lb)
        as Hstatic. cbv zeta in Hstatic.
      exists n. destruct Hstatic as (? & ? & ? & ? & Hn & ? & ?).
      rewrite Hn in Hle. by repeat split.
    + unfold GetLevels in Hrun.
      rewrite decide_False, Hpoll in Hrun by done. discriminate.
    + unfold GetLevels in Hrun.
      rewrite decide_False, Hpoll in Hrun by done. discriminate.
Qed.

Lemma mapAt_keeps_keys (p : swingLevelProvider) (m : gmap Qc Qc) (n : nat)
    (k : Qc) :
  is_Some (m !! k) → is_Some (mapAt quantize p m n !! k).
Proof.
  intros Hk. induction n as [|n IH]; [done|].
  rewrite mapAt_S. apply lookup_insert_is_Some'. by right.
Qed.

Lemma mapAt_size (p : swingLevelProvider) (m : gmap Qc Qc) (n : nat) :
  (size (mapAt quantize p m n) ≤ size m + n)%nat.
Proof.
  induction n as [|n IH]; [unfold mapAt; simpl; lia|].
  rewrite mapAt_S, map_size_insert.
  destruct (mapAt quantize p m n !! _); simpl; lia.
Qed.

(** An iteration that ran left more than [minBase] exposed and priced its
    level within the limit. *)
Lemma exitsAt_false (p : swingLevelProvider) (maxAssetBase : Qc) (i : nat) :
  exitsAt p maxAssetBase i = false →
  minBase p < maxAssetBase - exposedAt p (pred i) - usageAt p i ∧
  (if useMaxQuoteInTargetAmountCalc p
   then priceLimit p <= 1 / priceToUseAt p i
   else priceToUseAt p i <= priceLimit p).
Proof.
  unfold exitsAt. intros Hexit.
  apply orb_false_iff in Hexit as [Hexit Hsell].
  apply orb_false_iff in Hexit as [Hbase Hbuy].
  apply bool_decide_eq_false in Hbase. split; [by apply Qcnot_le_lt|].
  destruct (useMaxQuoteInTargetAmountCalc p); simpl in Hbuy, Hsell.
  - apply bool_decide_eq_false in Hbuy. by apply Qcnot_lt_le.
  - apply bool_decide_eq_false in Hsell. by apply Qcnot_lt_le.
Qed.

End GetLevelsResults.

(** X4.  A successful [GetLevels] returns at most [maxLevels] levels, none
    when [maxLevels] is zero or negative, and every level carries the
    quantized [amountBase] as its amount. *)
Theorem GetLevels_at_most_maxLevels :
  ∀ (Fetcher : Type)
    (GetTradeHistory :
       Fetcher → TradingPair → string → result (list Swing.Trade) * Fetcher)
    (quantize : Qc → Qc) (rangeOrder : gmap Qc Qc → list (Qc * Qc))
    (fuel : nat) (hack : bool) (p p' : Swing.swingLevelProvider)
    (m m' : gmap Qc Qc) (w w' : Swing.World Fetcher)
    (maxAssetBase maxAssetQuote : Qc) (lvls : list Swing.Level),
    Swing.GetLevels GetTradeHistory quantize rangeOrder fuel hack p m w
      maxAssetBase maxAssetQuote = Some (Ok lvls, p', m', w') →
    (length lvls ≤ Z.to_nat (Swing.maxLevels p))%nat ∧
    ((Swing.maxLevels p ≤ 0)%Z → lvls = []) ∧
    Forall (λ l, Swing.Amount l = quantize (Swing.amountBase p)) lvls.
Proof.
  intros F fetch quantize rangeOrder fuel hack p p' m m' w w' mb mq lvls Hrun.
  apply GetLevels_Ok_shape in Hrun
    as (n & Hle & -> & _ & _ & (_ & _ & Ha & _)).
  rewrite length_fmap, length_seq. split; [done|]. split.
  - intros Hneg. assert (n = 0)%nat as -> by lia. done.
  - apply Forall_fmap, Forall_forall. intros i _. simpl. by rewrite Ha.
Qed.

Lemma GetLevels_at_most_maxLevels_witness :
  ∃ lvls p' m' w',
    Samples.run 1 false Samples.seller ∅ (Samples.world [])
      = Some (Ok lvls, p', m', w') ∧
    (length lvls ≤ 3)%nat.
Proof.
  destruct (Samples.run 1 false Samples.seller ∅ (Samples.world []))
    as [[[[[lvls|e] p'] m'] w']|] eqn:Hrun; [|by vm_compute in Hrun..].
  exists lvls, p', m', w'. split; [done|].
  by destruct (GetLevels_at_most_maxLevels _ _ _ _ _ _ _ _ _ _ _ _ _ _ _
                 Hrun) as [Hlen _].
Defined.



(** X6.  Every level a successful [GetLevels] returns was priced within the
    price limit before quantization: on the sell side the price of level [i]
    is at most [priceLimit], on the buy side, where prices are kept
    inverted, its inverse is at least [priceLimit]. *)
Theorem GetLevels_respects_priceLimit :
  ∀ (Fetcher : Type)
    (GetTradeHistory :
       Fetcher → TradingPair → string → result (list Swing.Trade) * Fetcher)
    (quantize : Qc → Qc) (rangeOrder : gmap Qc Qc → list (Qc * Qc))
    (fuel : nat) (hack : bool) (p p' : Swing.swingLevelProvider)
    (m m' : gmap Qc Qc) (w w' : Swing.World Fetcher)
    (maxAssetBase maxAssetQuote : Qc) (lvls : list Swing.Level) (i : nat),
    Swing.GetLevels GetTradeHistory quantize rangeOrder fuel hack p m w
      maxAssetBase maxAssetQuote = Some (Ok lvls, p', m', w') →
    (1 ≤ i ≤ length lvls)%nat →
    lvls !! (i - 1)%nat
      = Some (Swing.mkLevel (quantize (Swing.priceToUseAt p' i))
                (quantize (Swing.amountBase p))) ∧
    (if Swing.useMaxQuoteInTargetAmountCalc p
     then Swing.priceLimit p <= 1 / Swing.priceToUseAt p' i
     else Swing.priceToUseAt p' i <= Swing.priceLimit p).
Proof.
  intros F fetch quantize rangeOrder fuel hack p p' m m' w w' mb mq lvls i
    Hrun Hi.
  apply GetLevels_Ok_shape in Hrun
    as (n & Hle & -> & _ & Hran & (_ & _ & Ha & Hu & _ & Hl & _)).
  rewrite length_fmap, length_seq in Hi. split.
  - rewrite list_lookup_fmap.
    assert (seq 1 n !! (i - 1)%nat = Some i) as ->
      by (apply lookup_seq; lia).
    simpl. unfold Swing.levelAt. by rewrite Ha.
  - destruct (exitsAt_false p' mb i (Hran i Hi)) as [_ Hlimit].
    by rewrite Hu, Hl in Hlimit.
Qed.

Lemma GetLevels_respects_priceLimit_witness :
  ∃ lvls p' m' w',
    Samples.run 1 false Samples.seller ∅ (Samples.world [])
      = Some (Ok lvls, p', m', w') ∧
    Swing.priceToUseAt p' 3 <= frac 10 1.
Proof.
  destruct (Samples.run 1 false Samples.seller ∅ (Samples.world []))
    as [[[[[lvls|e] p'] m'] w']|] eqn:Hrun; [|by vm_compute in Hrun..].
  exists lvls, p', m', w'. split; [done|].
  destruct (GetLevels_respects_priceLimit _ _ _ _ _ _ _ _ _ _ _ _ _ _ _ 3
              Hrun) as [_ Hlimit].
  - vm_compute in Hrun. injection Hrun as <- _ _ _. simpl. lia.
  - exact Hlimit.
Defined.

(** X7.  [GetLevels] only adds to the continuity map: every key of the map
    before a successful call is a key after it, and the map grows by at most
    one entry per level returned. *)
Theorem GetLevels_only_adds_to_map :
  ∀ (Fetcher : Type)
    (GetTradeHistory :
       Fetcher → TradingPair → string → result (list Swing.Trade) * Fetcher)
    (quantize : Qc → Qc) (rangeOrder : gmap Qc Qc → list (Qc * Qc))
    (fuel : nat) (hack : bool) (p p' : Swing.swingLevelProvider)
    (m m' : gmap Qc Qc) (w w' : Swing.World Fetcher)
    (maxAssetBase maxAssetQuote : Qc) (lvls : list Swing.Level),
    Swing.GetLevels GetTradeHistory quantize rangeOrder fuel hack p m w
      maxAssetBase maxAssetQuote = Some (Ok lvls, p', m', w') →
    (∀ k : Qc, is_Some (m !! k) → is_Some (m' !! k)) ∧
    (size m' ≤ size m + length lvls)%nat.
Proof.
  intros F fetch quantize rangeOrder fuel hack p p' m m' w w' mb mq lvls Hrun.
  apply GetLevels_Ok_shape in Hrun as (n & _ & -> & -> & _).
  rewrite length_fmap, length_seq. split.
  - intros k. apply mapAt_keeps_keys.
  - apply mapAt_size.
Qed.

Lemma GetLevels_only_adds_to_map_witness :
  ∃ lvls p' m' w',
    Samples.run 1 false Samples.seller {[frac 5 1 := frac 5 1]}
      (Samples.world [])
      = Some (Ok lvls, p', m', w') ∧
    is_Some (m' !! frac 5 1).
Proof.
  destruct (Samples.run 1 false Samples.seller {[frac 5 1 := frac 5 1]}
              (Samples.world []))
    as [[[[[lvls|e] p'] m'] w']|] eqn:Hrun; [|by vm_compute in Hrun..].
  exists lvls, p', m', w'. split; [done|].
  destruct (GetLevels_only_adds_to_map _ _ _ _ _ _ _ _ _ _ _ _ _ _ _ Hrun)
    as [Hkeys _].
  apply Hkeys. by rewrite lookup_singleton_eq.
Defined.

(** X8.  On the provider's first run past the inventory guard, whatever
    trades the poll saw, [GetLevels] adopts the polled cursor and clears the
    first-run flag but leaves the swing price as it was. *)
Theorem GetLevels_first_run_keeps_swing_price :
  ∀ (Fetcher : Type)
    (GetTradeHistory :
       Fetcher → TradingPair → string → result (list Swing.Trade) * Fetcher)
    (quantize : Qc → Qc) (rangeOrder : gmap Qc Qc → list (Qc * Qc))
    (fuel : nat) (hack : bool) (p : Swing.swingLevelProvider)
    (m : gmap Qc Qc) (w w' : Swing.World Fetcher)
    (maxAssetBase maxAssetQuote lastPrice : Qc) (lastCursor : string)
    (lastIsBuy : bool),
    Swing.minBase p < maxAssetBase →
    Swing.isFirstTradeHistoryRun p = true →
    Swing.fetchLatestTradePrice GetTradeHistory fuel hack p w
      = Some (Ok (lastPrice, lastCursor, lastIsBuy), w') →
    ∃ (lvls : list Swing.Level) (p' : Swing.swingLevelProvider)
      (m' : gmap Qc Qc),
      Swing.GetLevels GetTradeHistory quantize rangeOrder fuel hack p m w
        maxAssetBase maxAssetQuote = Some (Ok lvls, p', m', w') ∧
      Swing.lastTradePrice p' = Swing.lastTradePrice p ∧
      Swing.lastTradeCursor p' = lastCursor ∧
      Swing.isFirstTradeHistoryRun p' = false.
Proof.
  intros F fetch quantize rangeOrder fuel hack p m w w' mb mq lp lc lb
    Hbase Hfirst Hpoll.
  destruct (GetLevels_after_poll fetch quantize rangeOrder fuel hack p m w w'
              mb mq lp lc lb Hbase Hpoll) as (n & _ & Hrun & _).
  eexists _, _, _. split; [exact Hrun|].
  unfold Swing.reconcile. by rewrite Hfirst.
Qed.

(** The first run sees a buy at 2.5 (transaction t1): the swing price stays
    2.0 and the cursor becomes t1. *)
Lemma GetLevels_first_run_keeps_swing_price_witness :
  ∃ lvls p' m' w',
    Samples.run 2 false Samples.seller ∅
      (Samples.world
         [Ok [Swing.mkTrade "t1" "1700000000" Swing.OrderActionBuy
                (frac 25 10)]])
      = Some (Ok lvls, p', m', w') ∧
    Swing.lastTradePrice p' = frac 2 1 ∧
    Swing.lastTradeCursor p' = "t1".
Proof.
  destruct (GetLevels_first_run_keeps_swing_price _ Swing.scriptedFetcher
              Swing.roundToPrecision Swing.keyOrder 2 false Samples.seller ∅
              (Samples.world
                 [Ok [Swing.mkTrade "t1" "1700000000" Swing.OrderActionBuy
                        (frac 25 10)]])
              (Swing.mkWorld [] ["t1"; "c0"]) (frac 100 1) 0 (frac 25 10)
              "t1" true)
    as (lvls & p' & m' & Hrun & Hprice & Hcursor & _).
  - by vm_compute.
  - reflexivity.
  - reflexivity.
  - exists lvls, p', m', (Swing.mkWorld [] ["t1"; "c0"]).
    by split; [exact Hrun|].
Defined.

(** X9.  On a later run, when the page at the stored cursor is empty,
    [GetLevels] makes that one fetch and leaves the provider exactly as it
    was; the levels are computed from the stored swing price. *)
Theorem GetLevels_without_new_trades :
  ∀ (Fetcher : Type)
    (GetTradeHistory :
       Fetcher → TradingPair → string → result (list Swing.Trade) * Fetcher)
    (quantize : Qc → Qc) (rangeOrder : gmap Qc Qc → list (Qc * Qc))
    (fuel : nat) (hack : bool) (p : Swing.swingLevelProvider)
    (m : gmap Qc Qc) (w : Swing.World Fetcher)
    (maxAssetBase maxAssetQuote : Qc) (f : Fetcher),
    Swing.minBase p < maxAssetBase →
    Swing.isFirstTradeHistoryRun p = false →
    GetTradeHistory (Swing.fetcher w) (Swing.tradingPair p)
      (Swing.lastTradeCursor p) = (Ok [], f) →
    (1 ≤ fuel)%nat →
    ∃ (lvls : list Swing.Level) (m' : gmap Qc Qc),
      Swing.GetLevels GetTradeHistory quantize rangeOrder fuel hack p m w
        maxAssetBase maxAssetQuote
      = Some (Ok lvls, p, m',
              Swing.mkWorld f (Swing.lastTradeCursor p :: Swing.fetched w)).
Proof.
  intros F fetch quantize rangeOrder fuel hack p m w mb mq f Hbase Hfirst
    Hpage Hfuel.
  assert (Swing.fetchLatestTradePrice fetch fuel hack p w
          = Some (Ok (Swing.lastTradePrice p, Swing.lastTradeCursor p, false),
                  Swing.mkWorld f
                    (Swing.lastTradeCursor p :: Swing.fetched w))) as Hpoll.
  { destruct fuel as [|fuel]; [lia|].
    unfold Swing.fetchLatestTradePrice. cbn [Swing.pollLoop].
    unfold Swing.pollOnce, Swing.callGetTradeHistory. by rewrite Hpage. }
  destruct (GetLevels_after_poll fetch quantize rangeOrder fuel hack p m w _
              mb mq _ _ _ Hbase Hpoll) as (n & _ & Hrun & _).
  eexists _, _. rewrite Hrun. do 3 f_equal.
  unfold Swing.reconcile. rewrite Hfirst. by rewrite decide_True.
Qed.

Lemma GetLevels_without_new_trades_witness :
  let p := Swing.clearFirstRun Samples.seller in
  ∃ lvls m',
    Samples.run 1 false p ∅ (Samples.world [])
    = Some (Ok lvls, p, m', Swing.mkWorld [] ["c0"]).
Proof.
  intros p.
  apply (GetLevels_without_new_trades _ Swing.scriptedFetcher
           Swing.roundToPrecision Swing.keyOrder 1 false p ∅
           (Samples.world []) (frac 100 1) 0 []).
  - by vm_compute.
  - reflexivity.
  - reflexivity.
  - lia.
Defined.

(** ** Calling [GetLevels] again *)

Section Upserts.

Variable key val : nat → Qc.

Let upsert (acc : gmap Qc Qc) (i : nat) : gmap Qc Qc :=
  <[key i := val i]> acc.

(** A key that no iteration writes keeps its entry. *)
Lemma upserts_lookup_other (l : list nat) (m : gmap Qc Qc) (k : Qc) :
  Forall (λ i, key i ≠ k) l → foldl upsert m l !! k = m !! k.
Proof.
  revert m. induction l as [|i l IH]; intros m Hl; [done|].
  apply Forall_cons in Hl as [Hi Hl]. cbn [foldl].
  rewrite IH by done. unfold upsert. by rewrite lookup_insert_ne.
Qed.

(** Under a key that some iteration writes, what is found does not depend on
    the map the iterations started from. *)
Lemma upserts_lookup_written (l : list nat) (m m' : gmap Qc Qc) (k : Qc) :
  Exists (λ i, key i = k) l →
  foldl upsert m l !! k = foldl upsert m' l !! k.
Proof.
  revert m m'. induction l as [|i l IH]; intros m m' Hl.
  - by apply Exists_nil in Hl.
  - cbn [foldl].
    destruct (decide (Exists (λ i, key i = k) l)) as [Hlater|Hlater].
    + by apply IH.
    + apply not_Exists_Forall in Hlater; [|intros j; apply _].
      rewrite !upserts_lookup_other by done.
      apply Exists_cons in Hl as [Hi | Hl].
      * unfold upsert. rewrite Hi. by rewrite !lookup_insert_eq.
      * exfalso. revert Hl. apply Forall_Exists_neg. done.
Qed.

(** Writing the same entries a second time changes nothing. *)
Lemma upserts_idempotent (l : list nat) (m : gmap Qc Qc) :
  foldl upsert (foldl upsert m l) l = foldl upsert m l.
Proof.
  apply map_eq. intros k.
  destruct (decide (Exists (λ i, key i = k) l)) as [Hw|Hw].
  - by apply upserts_lookup_written.
  - apply not_Exists_Forall in Hw; [|intros j; apply _].
    by rewrite upserts_lookup_other.
Qed.

End Upserts.

Lemma mapAt_idempotent (quantize : Qc → Qc) (p : Swing.swingLevelProvider)
    (m : gmap Qc Qc) (n : nat) :
  Swing.mapAt quantize p (Swing.mapAt quantize p m n) n
  = Swing.mapAt quantize p m n.
Proof.
  unfold Swing.mapAt.
  apply (upserts_idempotent (Swing.mapKeyAt quantize p) (Swing.mapValueAt p)).
Qed.

(** The number of iterations that run is determined by the [break]s. *)
Lemma iterations_unique (p : Swing.swingLevelProvider) (maxAssetBase : Qc)
    (N n1 n2 : nat) :
  (n1 ≤ N)%nat → (n2 ≤ N)%nat →
  (∀ i, (1 ≤ i ≤ n1)%nat → Swing.exitsAt p maxAssetBase i = false) →
  (∀ i, (1 ≤ i ≤ n2)%nat → Swing.exitsAt p maxAssetBase i = false) →
  ((n1 < N)%nat → Swing.exitsAt p maxAssetBase (S n1) = true) →
  ((n2 < N)%nat → Swing.exitsAt p maxAssetBase (S n2) = true) →
  n1 = n2.
Proof.
  intros Hn1 Hn2 Hran1 Hran2 Hstop1 Hstop2.
  destruct (Nat.lt_trichotomy n1 n2) as [Hlt | [-> | Hlt]]; [|done|].
  - rewrite (Hran2 (S n1)) in Hstop1 by lia.
    discriminate Hstop1; lia.
  - rewrite (Hran1 (S n2)) in Hstop2 by lia.
    discriminate Hstop2; lia.
Qed.

(** X10.  [GetLevels] is idempotent while nothing trades: after a
    successful call past the inventory guard, a further call for the same
    [maxAssetBase] whose poll ends on the stored cursor returns the same
    levels and leaves the provider and the continuity map as the first call
    left them. *)
Theorem GetLevels_again_without_trades :
  ∀ (Fetcher : Type)
    (GetTradeHistory :
       Fetcher → TradingPair → string → result (list Swing.Trade) * Fetcher)
    (quantize : Qc → Qc) (rangeOrder : gmap Qc Qc → list (Qc * Qc))
    (fuel fuel' : nat) (hack hack' : bool) (p p1 : Swing.swingLevelProvider)
    (m m1 : gmap Qc Qc) (w w1 w1' w2 : Swing.World Fetcher)
    (maxAssetBase maxAssetQuote maxAssetQuote' lastPrice : Qc)
    (lastIsBuy : bool) (lvls : list Swing.Level),
    Swing.minBase p < maxAssetBase →
    Swing.GetLevels GetTradeHistory quantize rangeOrder fuel hack p m w
      maxAssetBase maxAssetQuote = Some (Ok lvls, p1, m1, w1) →
    Swing.fetchLatestTradePrice GetTradeHistory fuel' hack' p1 w1'
      = Some (Ok (lastPrice, Swing.lastTradeCursor p1, lastIsBuy), w2) →
    Swing.GetLevels GetTradeHistory quantize rangeOrder fuel' hack' p1 m1 w1'
      maxAssetBase maxAssetQuote' = Some (Ok lvls, p1, m1, w2).
Proof.
  intros F fetch quantize rangeOrder fuel fuel' hack hack' p p1 m m1 w w1 w1'
    w2 mb mq mq' lp lb lvls Hbase Hrun Hpoll'.
  (* the first call *)
  destruct (Swing.fetchLatestTradePrice fetch fuel hack p w)
    as [[[[[lp0 lc0] lb0] | e] w0]|] eqn:Hpoll;
    [| unfold Swing.GetLevels in Hrun;
       rewrite decide_False, Hpoll in Hrun
         by (by apply Qclt_not_le); discriminate ..].
  destruct (GetLevels_after_poll fetch quantize rangeOrder fuel hack p m w w0
              mb mq lp0 lc0 lb0 Hbase Hpoll)
    as (n & Hle & Heq & Hran & Hstop).
  rewrite Heq in Hrun. injection Hrun as <- Hp1 <- <-.
  pose proof (reconcile_not_first quantize rangeOrder p m lp0 lc0 lb0)
    as Hfirst.
  pose proof (reconcile_static quantize rangeOrder p m lp0 lc0 lb0)
    as (_ & _ & _ & _ & _ & _ & Hm). cbv zeta in Hm.
  rewrite Hp1 in Hle, Hran, Hstop, Hfirst, Hm |- *. clear Hp1.
  (* the second call *)
  assert (Swing.minBase p1 < mb) as Hbase' by (by rewrite Hm).
  destruct (GetLevels_after_poll fetch quantize rangeOrder fuel' hack' p1
              (Swing.mapAt quantize p1 m n) w1' w2 mb mq' lp
              (Swing.lastTradeCursor p1) lb Hbase' Hpoll')
    as (n' & Hle' & Heq' & Hran' & Hstop').
  assert (Swing.reconcile quantize rangeOrder p1
            (Swing.mapAt quantize p1 m n) lp (Swing.lastTradeCursor p1) lb
          = p1) as Hsame.
  { unfold Swing.reconcile. rewrite Hfirst. by rewrite decide_True. }
  rewrite Hsame in Hle', Heq', Hran', Hstop'.
  assert (n' = n) as ->.
  { by eapply (iterations_unique p1 mb (Z.to_nat (Swing.maxLevels p1))). }
  by rewrite Heq', mapAt_idempotent.
Qed.

(** The sample provider, called twice against a silent trade history. *)
Lemma GetLevels_again_without_trades_witness :
  ∃ lvls p1 m1 w1 w2,
    Samples.run 1 false Samples.seller ∅ (Samples.world [])
      = Some (Ok lvls, p1, m1, w1) ∧
    Samples.run 1 false p1 m1 (Samples.world [])
      = Some (Ok lvls, p1, m1, w2).
Proof.
  destruct (Samples.run 1 false Samples.seller ∅ (Samples.world []))
    as [[[[[lvls|e] p1] m1] w1]|] eqn:Hrun; [|by vm_compute in Hrun..].
  exists lvls, p1, m1, w1, (Swing.mkWorld [] [Swing.lastTradeCursor p1]).
  split; [done|].
  apply (GetLevels_again_without_trades _ Swing.scriptedFetcher
           Swing.roundToPrecision Swing.keyOrder 1 1 false false
           Samples.seller p1 ∅ m1 (Samples.world []) w1 (Samples.world [])
           (Swing.mkWorld [] [Swing.lastTradeCursor p1]) (frac 100 1) 0 0
           (Swing.lastTradePrice p1) false lvls).
  - by vm_compute.
  - exact Hrun.
  - reflexivity.
Defined.

(** ** The cursor of an adapter with inclusive cursors *)

Lemma digitValue_pretty_N_char (d : N) :
  (d < 10)%N → Swing.digitValue (pretty_N_char d) = Some (Z.of_N d).
Proof.
  intros Hd.
  assert (d = 0 ∨ d = 1 ∨ d = 2 ∨ d = 3 ∨ d = 4 ∨ d = 5 ∨ d = 6 ∨ d = 7
          ∨ d = 8 ∨ d = 9)%N as Hcases by lia.
  repeat (destruct Hcases as [-> | Hcases]; [reflexivity|]).
  by subst d.
Qed.

(** Reading back the digits that [pretty_N_go] writes in front of [s]. *)
Lemma parseDigits_pretty_N_go (x : N) :
  ∃ n : Z, (0 ≤ n)%Z ∧
    ∀ (acc : Z) (s : string),
      Swing.parseDigits acc (pretty_N_go x s)
      = Swing.parseDigits (acc * 10 ^ n + Z.of_N x)%Z s.
Proof.
  induction (N.lt_wf_0 x) as [x _ IH].
  destruct (decide (x = 0)%N) as [-> | Hx].
  - exists 0%Z. split; [done|]. intros acc s. rewrite pretty_N_go_0.
    f_equal. lia.
  - destruct (IH (x `div` 10)%N) as (n & Hn & Hread).
    { apply N.div_lt; lia. }
    exists (n + 1)%Z. split; [lia|]. intros acc s.
    rewrite pretty_N_go_step by lia. rewrite Hread. cbn [Swing.parseDigits].
    rewrite digitValue_pretty_N_char by (apply N.mod_lt; lia).
    simpl. f_equal.
    rewrite Z.pow_add_r, Z.pow_1_r by lia.
    rewrite (N.div_mod x 10) at 3 by lia.
    rewrite N2Z.inj_add, N2Z.inj_mul. change (Z.of_N 10) with 10%Z. ring.
Qed.

(** The decimal rendering of a positive number starts with a digit. *)
Lemma pretty_N_go_starts_with_digit (x : N) (s : string) :
  (0 < x)%N →
  ∃ (d : N) (rest : string),
    (d < 10)%N ∧ pretty_N_go x s = String (pretty_N_char d) rest.
Proof.
  revert s. induction (N.lt_wf_0 x) as [x _ IH]. intros s Hx.
  rewrite pretty_N_go_step by done.
  destruct (decide (x `div` 10 = 0)%N) as [-> | Hdiv].
  - rewrite pretty_N_go_0. eexists _, _. split; [|done].
    apply N.mod_lt. lia.
  - apply IH.
    + apply N.div_lt; lia.
    + apply N.neq_0_lt_0. exact Hdiv.
Qed.

Lemma parseDigits_pretty_positive (x : positive) :
  ∃ (c : ascii) (rest : string),
    pretty (N.pos x) = String c rest ∧ c ≠ "+"%char ∧ c ≠ "-"%char ∧
    Swing.parseDigits 0 (String c rest) = Some (Z.pos x).
Proof.
  unfold pretty, pretty_N. rewrite decide_False by done.
  destruct (pretty_N_go_starts_with_digit (N.pos x) "") as (d & rest & Hd & Heq);
    [lia|].
  exists (pretty_N_char d), rest. split; [done|].
  split; [|split].
  - unfold pretty_N_char. by repeat case_match.
  - unfold pretty_N_char. by repeat case_match.
  - rewrite <- Heq.
    destruct (parseDigits_pretty_N_go (N.pos x)) as (n & _ & Hread).
    rewrite Hread. simpl. done.
Qed.

(** [Atoi] on a string that starts with no sign. *)
Lemma Atoi_unsigned (c : ascii) (rest : string) :
  c ≠ "+"%char → c ≠ "-"%char →
  Swing.Atoi (String c rest)
  = match Swing.parseDigits 0 (String c rest) with
    | None => Err "strconv.Atoi: invalid syntax"
    | Some n =>
        if bool_decide (Swing.minInt64 ≤ n ≤ Swing.maxInt64)%Z then Ok n
        else Err "strconv.Atoi: value out of range"
    end.
Proof.
  intros Hplus Hminus. unfold Swing.Atoi.
  destruct c as [[] [] [] [] [] [] [] []]; try done.
Qed.

(** [Atoi] reads back what [FormatInt] writes, for every [int64]. *)
Lemma Atoi_FormatInt (z : Z) :
  (Swing.minInt64 ≤ z ≤ Swing.maxInt64)%Z →
  Swing.Atoi (Swing.FormatInt z) = Ok z.
Proof.
  intros Hz. unfold Swing.FormatInt.
  destruct z as [|x|x].
  - reflexivity.
  - change (pretty (Z.pos x)) with (pretty (N.pos x)).
    destruct (parseDigits_pretty_positive x)
      as (c & rest & -> & Hp & Hm & Hread).
    rewrite Atoi_unsigned, Hread by done.
    by rewrite bool_decide_eq_true_2.
  - change (pretty (Z.neg x)) with (String "-"%char (pretty (N.pos x))).
    destruct (parseDigits_pretty_positive x)
      as (c & rest & -> & Hp & Hm & Hread).
    unfold Swing.Atoi. rewrite Hread.
    by rewrite bool_decide_eq_true_2.
Qed.

(** X11.  Under [IsCcxtTradeHistoryHack], where the adapter's cursor is
    inclusive, the cursor after a trade whose order timestamp is the integer
    [z] is the decimal rendering of [z + 1]; at the largest [int64] the sum
    wraps around to the smallest. *)
Theorem nextCursor_is_one_past_timestamp :
  ∀ (t : Swing.Trade) (z : Z),
    Swing.OrderTimestamp t = Swing.FormatInt z →
    (Swing.minInt64 ≤ z ≤ Swing.maxInt64)%Z →
    ((z < Swing.maxInt64)%Z →
     Swing.nextCursor true t = Ok (Swing.FormatInt (z + 1))) ∧
    (z = Swing.maxInt64 →
     Swing.nextCursor true t = Ok (Swing.FormatInt Swing.minInt64)).
Proof.
  intros t z Hstamp Hz. unfold Swing.nextCursor.
  rewrite Hstamp, Atoi_FormatInt by done. split.
  - intros Hlt. do 2 f_equal. unfold Swing.wrapInt64.
    unfold Swing.minInt64, Swing.maxInt64 in *.
    rewrite Z.mod_small by lia. lia.
  - intros ->. reflexivity.
Qed.

Lemma nextCursor_is_one_past_timestamp_witness :
  Swing.nextCursor true
    (Swing.mkTrade "t1" "1700000000" Swing.OrderActionBuy (frac 25 10))
  = Ok "1700000001".
Proof.
  apply (nextCursor_is_one_past_timestamp
           (Swing.mkTrade "t1" "1700000000" Swing.OrderActionBuy (frac 25 10))
           1700000000).
  - reflexivity.
  - by vm_compute.
  - by vm_compute.
Defined.

(** Under the cursor hack a trade whose timestamp reads "soon" makes the
    call fail; the provider and the map are those of before. *)
Lemma GetLevels_error_leaves_state_witness :
  ∃ e w',
    Samples.run 1 true Samples.seller ∅
      (Samples.world
         [Ok [Swing.mkTrade "t1" "soon" Swing.OrderActionBuy (frac 25 10)]])
    = Some (Err e, Samples.seller, ∅, w').
Proof.
  destruct (Samples.run 1 true Samples.seller ∅
              (Samples.world
                 [Ok [Swing.mkTrade "t1" "soon" Swing.OrderActionBuy
                        (frac 25 10)]]))
    as [[[[[lvls|e] p'] m'] w']|] eqn:Hrun; [by vm_compute in Hrun | |
                                             by vm_compute in Hrun].
  destruct (GetLevels_error_leaves_state _ _ _ _ _ _ _ _ _ _ _ _ _ _ Hrun)
    as [-> ->].
  by exists e, w'.
Defined.
